(** * datafile-cleaner: the table aligner and cleaner of [src/app/page.tsx]

    A shallow embedding of [cleanData] (page.tsx, lines 368-465) together
    with the JavaScript built-ins it calls, and the properties of the
    written specification checked against it.

    Conventions of the model.
    - A JavaScript string is a [string] whose characters are the code
      units 0 to 255 (Basic Latin and Latin-1 Supplement): the character
      of code 160 is NO-BREAK SPACE, U+00A0.  Code units above 255 are
      outside the model.  On this range white space ([trim] and the
      class \s), the class \d, the class [a-zA-Z0-9] and [toLowerCase]
      are ECMAScript's.  [toUpperCase] is ECMAScript's but for the three
      characters whose capital is not one code unit below 256 (codes
      181, 223 and 255), which it leaves as they are.
    - A cell ([any] in the source) is a string, an integer-valued number,
      a boolean, [null] or [undefined].  A number cell is an integer that
      a JavaScript number holds exactly and whose magnitude is below
      10^21, which JavaScript prints in decimal notation; larger,
      fractional and non-finite numbers are outside the model.
    - Counters are JavaScript numbers and may go below zero, so they are
      [Z]. *)

From Stdlib Require Import ZArith Lia Ascii String DecimalString DecimalZ DecimalPos.
From stdpp Require Import base list strings gmap.

(** ** Built-in string operations *)

Module JsString.

Definition code (c : ascii) : N := N_of_ascii c.

(** ECMAScript WhiteSpace and LineTerminator among the code units 0 to
    255: TAB, LF, VT, FF, CR, SPACE and NO-BREAK SPACE (U+00A0, code
    160).  Used by [trim] and by the class \s. *)
Definition isWhiteSpace (c : ascii) : bool :=
  (code c =? 32)%N || ((9 <=? code c)%N && (code c <=? 13)%N) || (code c =? 160)%N.

(** The class \d. *)
Definition isDigit (c : ascii) : bool :=
  (48 <=? code c)%N && (code c <=? 57)%N.

Definition isUpper (c : ascii) : bool :=
  (65 <=? code c)%N && (code c <=? 90)%N.

Definition isLower (c : ascii) : bool :=
  (97 <=? code c)%N && (code c <=? 122)%N.

(** The letters of the Latin-1 Supplement: capitals at 192 to 222 but
    for the multiplication sign (215), small letters at 224 to 254 but
    for the division sign (247), each 32 above its capital. *)
Definition isLatin1Upper (c : ascii) : bool :=
  (192 <=? code c)%N && (code c <=? 222)%N && negb (code c =? 215)%N.

Definition isLatin1Lower (c : ascii) : bool :=
  (224 <=? code c)%N && (code c <=? 254)%N && negb (code c =? 247)%N.

(** The capital of a character.  Three characters of the range have a
    capital that is not one code unit below 256 and are left as they are
    here: the micro sign (181, capital U+039C), the sharp s (223, capital
    SS) and y with diaeresis (255, capital U+0178). *)
Definition toUpperChar (c : ascii) : ascii :=
  if isLower c || isLatin1Lower c then ascii_of_N (code c - 32) else c.

Definition toLowerChar (c : ascii) : ascii :=
  if isUpper c || isLatin1Upper c then ascii_of_N (code c + 32) else c.

Fixpoint mapChars (f : ascii -> ascii) (s : string) : string :=
  match s with
  | EmptyString => EmptyString
  | String c s' => String (f c) (mapChars f s')
  end.

Fixpoint filterChars (p : ascii -> bool) (s : string) : string :=
  match s with
  | EmptyString => EmptyString
  | String c s' => if p c then String c (filterChars p s') else filterChars p s'
  end.

Fixpoint allChars (p : ascii -> bool) (s : string) : bool :=
  match s with
  | EmptyString => true
  | String c s' => p c && allChars p s'
  end.

Definition isEmpty (s : string) : bool :=
  match s with EmptyString => true | String _ _ => false end.

(** [String.prototype.toUpperCase] and [toLowerCase], character by
    character. *)
Definition toUpperCase : string -> string := mapChars toUpperChar.
Definition toLowerCase : string -> string := mapChars toLowerChar.

Fixpoint trimStart (s : string) : string :=
  match s with
  | EmptyString => EmptyString
  | String c s' => if isWhiteSpace c then trimStart s' else s
  end.

Fixpoint trimEnd (s : string) : string :=
  match s with
  | EmptyString => EmptyString
  | String c s' =>
      match trimEnd s' with
      | EmptyString => if isWhiteSpace c then EmptyString else String c EmptyString
      | t => String c t
      end
  end.

(** [String.prototype.trim]. *)
Definition trim (s : string) : string := trimStart (trimEnd s).

(** [s.replace(/[^a-zA-Z0-9\s]/g, '')]: every character outside the
    class is deleted. *)
Definition isWordOrSpace (c : ascii) : bool :=
  isLower c || isUpper c || isDigit c || isWhiteSpace c.

Definition removeSpecial (s : string) : string := filterChars isWordOrSpace s.

Definition isZero (c : ascii) : bool := Ascii.eqb c "0".

(** The tail of the pattern 0+\d once one zero has been consumed:
    either the next character is a digit, or it is one more zero of the
    run and the search goes on (the matcher backtracks over the greedy
    run, so both alternatives are tried). *)
Fixpoint zerosThenDigit (s : string) : bool :=
  match s with
  | EmptyString => false
  | String c s' => isDigit c || (isZero c && zerosThenDigit s')
  end.

(** [/^0+\d/.test(s)]. *)
Definition testLeadingZeros (s : string) : bool :=
  match s with
  | EmptyString => false
  | String c s' => isZero c && zerosThenDigit s'
  end.

(** [s.replace(/^0+/, '')]: the greedy run of zeros at the start is
    deleted; a string that does not start with a zero is unchanged. *)
Fixpoint stripZeros (s : string) : string :=
  match s with
  | EmptyString => EmptyString
  | String c s' => if isZero c then stripZeros s' else s
  end.

End JsString.

(** ** Cells *)

Inductive cell : Type :=
  | CStr (s : string)
  | CNum (n : Z)
  | CBool (b : bool)
  | CNull
  | CUndefined.

#[global] Instance cell_eq_dec : EqDecision cell.
Proof. solve_decision. Defined.

Module JsValue.

(** ToBoolean. *)
Definition truthy (c : cell) : bool :=
  match c with
  | CStr s => negb (JsString.isEmpty s)
  | CNum n => negb (n =? 0)%Z
  | CBool b => b
  | CNull | CUndefined => false
  end.

(** [c || ''] *)
Definition orEmpty (c : cell) : cell :=
  if truthy c then c else CStr EmptyString.

(** [Number.prototype.toString] on an integer (decimal notation). *)
Definition numberToString (n : Z) : string :=
  NilZero.string_of_int (Z.to_int n).

Definition boolToString (b : bool) : string :=
  if b then "true"%string else "false"%string.

(** [c.toString()] for a cell that is neither null nor undefined;
    [c?.toString()] yields undefined ([None]) on those two. *)
Definition optToString (c : cell) : option string :=
  match c with
  | CStr s => Some s
  | CNum n => Some (numberToString n)
  | CBool b => Some (boolToString b)
  | CNull | CUndefined => None
  end.

(** [c?.toString() || ''] *)
Definition textOf (c : cell) : string := default EmptyString (optToString c).

End JsValue.

(** ** JSON.stringify on a row *)

Module Json.

Definition dquote : ascii := "034"%char.
Definition backslash : ascii := "\"%char.

(** One lowercase hexadecimal digit. *)
Definition hexDigit (n : N) : ascii :=
  if (n <? 10)%N then ascii_of_N (48 + n) else ascii_of_N (87 + n).

Definition esc (c : ascii) : string := String backslash (String c EmptyString).

(** QuoteJSONString, one character: the two-character escapes of the
    ECMAScript table, \u00XX for the other control characters, the
    character itself otherwise. *)
Definition quoteChar (c : ascii) : string :=
  let n := JsString.code c in
  if (n =? 8)%N then esc "b"
  else if (n =? 9)%N then esc "t"
  else if (n =? 10)%N then esc "n"
  else if (n =? 12)%N then esc "f"
  else if (n =? 13)%N then esc "r"
  else if (n =? 34)%N then esc dquote
  else if (n =? 92)%N then esc backslash
  else if (n <? 32)%N then
    String backslash
      (String "u" (String "0" (String "0"
        (String (hexDigit (n / 16)) (String (hexDigit (n mod 16)) EmptyString)))))
  else String c EmptyString.

Fixpoint quoteChars (s : string) : string :=
  match s with
  | EmptyString => EmptyString
  | String c s' => quoteChar c +:+ quoteChars s'
  end.

Definition quoteString (s : string) : string :=
  String dquote (quoteChars s +:+ String dquote EmptyString).

(** Serialisation of an array element: null and undefined both print
    as null. *)
Definition stringifyCell (c : cell) : string :=
  match c with
  | CStr s => quoteString s
  | CNum n => JsValue.numberToString n
  | CBool b => JsValue.boolToString b
  | CNull | CUndefined => "null"%string
  end.

(** The elements and the closing bracket. *)
Fixpoint elements (row : list cell) : string :=
  match row with
  | [] => "]"%string
  | c :: row' =>
      stringifyCell c +:+
      match row' with
      | [] => "]"%string
      | _ :: _ => String "," (elements row')
      end
  end.

(** [JSON.stringify(row)] for an array of cells. *)
Definition stringify (row : list cell) : string := String "[" (elements row).

End Json.

(** ** The cleaner *)

(** [UploadedFile], restricted to the two fields [cleanData] reads. *)
Record UploadedFile : Type := {
  data : option (list (list cell));
  headers : option (list string)
}.

(** The state object [cleaningOptions] (page.tsx, lines 56-67). *)
Record cleaningOptions : Type := {
  removeDuplicates : bool;
  removeEmptyRows : bool;
  removeEmptyColumns : bool;
  trimWhitespace : bool;
  normalizeText : bool;
  removeSpecialCharacters : bool;
  standardizeDates : bool;
  convertToUppercase : bool;
  convertToLowercase : bool;
  removeLeadingZeros : bool
}.

Record CleaningResult : Type := {
  totalRowsCleaned : Z;
  columnsDeleted : Z;
  duplicateRowsRemoved : Z;
  cleanedData : list (list cell)
}.

(** [throw new Error(msg)] *)
Inductive exn : Type := Error (msg : string).

(** [l.indexOf(x)], with [None] for the sentinel -1. *)
Fixpoint indexOf (x : string) (l : list string) : option nat :=
  match l with
  | [] => None
  | y :: l' => if String.eqb y x then Some 0 else S <$> indexOf x l'
  end.

(** Step 1, the body of [templateHeaders.forEach]: the accumulator is the
    pair ([columnsToKeep], [keptHeaders]) and [push] appends at the end. *)
Definition alignStep (dataHeaders : list string)
    (acc : list nat * list string) (templateHeader : string) : list nat * list string :=
  match indexOf templateHeader dataHeaders with
  | Some dataIndex => (acc.1 ++ [dataIndex], acc.2 ++ [templateHeader])
  | None => acc
  end.

Definition alignColumns (dataHeaders templateHeaders : list string) : list nat * list string :=
  foldl (alignStep dataHeaders) ([], []) templateHeaders.

(** Step 2: [columnsToKeep.map(colIndex => row[colIndex] || '')]; an index
    past the end of the row reads undefined. *)
Definition projectRow (columnsToKeep : list nat) (row : list cell) : list cell :=
  (λ colIndex, JsValue.orEmpty (default CUndefined (row !! colIndex))) <$> columnsToKeep.

Definition projectTable (columnsToKeep : list nat) (originalData : list (list cell))
    : list (list cell) :=
  projectRow columnsToKeep <$> originalData.

(** The loop state of the duplicate removal. *)
Record dedup : Type := {
  uniqueRows : list (list cell);
  seenRows : gset string;
  removed : Z
}.

Definition dedupStep (st : dedup) (row : list cell) : dedup :=
  let rowKey := Json.stringify row in
  if decide (rowKey ∈ seenRows st) then
    {| uniqueRows := uniqueRows st; seenRows := seenRows st; removed := removed st + 1 |}
  else
    {| uniqueRows := uniqueRows st ++ [row];
       seenRows := {[ rowKey ]} ∪ seenRows st;
       removed := removed st |}.

Definition dedupRows (duplicateRowsRemoved : Z) (dataRows : list (list cell)) : dedup :=
  foldl dedupStep
    {| uniqueRows := []; seenRows := ∅; removed := duplicateRowsRemoved |} dataRows.

(** [cell && cell.toString().trim() !== ''] *)
Definition cellHasText (c : cell) : bool :=
  JsValue.truthy c &&
  match JsValue.optToString c with
  | Some s => negb (JsString.isEmpty (JsString.trim s))
  | None => false
  end.

(** [row.some(...)] *)
Definition rowHasText (row : list cell) : bool := existsb cellHasText row.

Definition anyTextOption (options : cleaningOptions) : bool :=
  trimWhitespace options || convertToUppercase options || convertToLowercase options
  || removeSpecialCharacters options || removeLeadingZeros options.

(** The body of the inner [row.map] (page.tsx, lines 428-450). *)
Definition transformText (options : cleaningOptions) (cellValue0 : string) : string :=
  let cellValue1 :=
    if trimWhitespace options then JsString.trim cellValue0 else cellValue0 in
  let cellValue2 :=
    if convertToUppercase options then JsString.toUpperCase cellValue1
    else if convertToLowercase options then JsString.toLowerCase cellValue1
    else cellValue1 in
  let cellValue3 :=
    if removeSpecialCharacters options then JsString.removeSpecial cellValue2
    else cellValue2 in
  if removeLeadingZeros options && JsString.testLeadingZeros cellValue3
  then JsString.stripZeros cellValue3
  else cellValue3.

Definition transformCell (options : cleaningOptions) (c : cell) : cell :=
  CStr (transformText options (JsValue.textOf c)).

(** The outer body, [row.map(cell => ...)]. *)
Definition transformRow (options : cleaningOptions) (row : list cell) : list cell :=
  transformCell options <$> row.

(** Step 3 on the data rows: returns the rows and the duplicate counter. *)
Definition cleanRows (options : cleaningOptions) (dataRows0 : list (list cell))
    : list (list cell) * Z :=
  let '(dataRows1, duplicateRowsRemoved) :=
    if removeDuplicates options then
      let st := dedupRows 0 dataRows0 in (uniqueRows st, removed st)
    else (dataRows0, 0%Z) in
  let dataRows2 :=
    if removeEmptyRows options then filter (fun row => rowHasText row = true) dataRows1
    else dataRows1 in
  let dataRows3 :=
    if anyTextOption options then transformRow options <$> dataRows2
    else dataRows2 in
  (dataRows3, duplicateRowsRemoved).

(** [cleanData] (page.tsx, lines 368-465).  The test
    [cleanedData.length > 1] is the second pattern of the match. *)
Definition cleanData (dataFile templateFile : UploadedFile) (options : cleaningOptions)
    : exn + CleaningResult :=
  match data dataFile, data templateFile, headers dataFile, headers templateFile with
  | Some originalData, Some _, Some dataHeaders, Some templateHeaders =>
      let '(columnsToKeep, keptHeaders) := alignColumns dataHeaders templateHeaders in
      let filteredData := projectTable columnsToKeep originalData in
      let '(cleanedData, duplicateRowsRemoved) :=
        match filteredData with
        | header :: (_ :: _) as dataRows =>
            let '(dataRows', n) := cleanRows options dataRows in
            (header :: dataRows', n)
        | _ => (filteredData, 0%Z)
        end in
      inr {| totalRowsCleaned := Z.of_nat (length cleanedData) - 1;
             columnsDeleted := Z.of_nat (length dataHeaders) - Z.of_nat (length keptHeaders);
             duplicateRowsRemoved := duplicateRowsRemoved;
             cleanedData := cleanedData |}
  | _, _, _, _ => inl (Error "File data is not available")
  end.

Definition noOptions : cleaningOptions :=
  {| removeDuplicates := false; removeEmptyRows := false; removeEmptyColumns := false;
     trimWhitespace := false; normalizeText := false; removeSpecialCharacters := false;
     standardizeDates := false; convertToUppercase := false; convertToLowercase := false;
     removeLeadingZeros := false |}.


(** ** Notions used to state the properties *)

(** Inverse of [Json.quoteChar] on the front of a string; it serves the
    proof that the row key determines the row. *)
Definition hexValue (c : ascii) : N :=
  let n := JsString.code c in
  if (n <? 58)%N then (n - 48)%N else (n - 87)%N.

Definition unquoteChar (s : string) : option (ascii * string) :=
  match s with
  | EmptyString => None
  | String c r =>
      if Ascii.eqb c Json.dquote then None
      else if Ascii.eqb c Json.backslash then
        match r with
        | String e r' =>
            if Ascii.eqb e "b" then Some (ascii_of_N 8, r')
            else if Ascii.eqb e "t" then Some (ascii_of_N 9, r')
            else if Ascii.eqb e "n" then Some (ascii_of_N 10, r')
            else if Ascii.eqb e "f" then Some (ascii_of_N 12, r')
            else if Ascii.eqb e "r" then Some (ascii_of_N 13, r')
            else if Ascii.eqb e "u" then
              match r' with
              | String _ (String _ (String h (String l r''))) =>
                  Some (ascii_of_N (16 * hexValue h + hexValue l), r'')
              | _ => None
              end
            else Some (e, r')
        | EmptyString => None
        end
      else Some (c, r)
  end.

(** The characters a printed integer is made of. *)
Definition isNumberChar (c : ascii) : bool := JsString.isDigit c || Ascii.eqb c "-".

(** What follows an element inside a serialised array. *)
Definition isDelimiter (c : ascii) : bool := Ascii.eqb c "," || Ascii.eqb c "]".

Definition startsWith (p : ascii -> bool) (s : string) : bool :=
  match s with
  | EmptyString => false
  | String c _ => p c
  end.

(** A string of [n] zeros. *)
Fixpoint zeros (n : nat) : string :=
  match n with
  | O => EmptyString
  | S n' => String "0" (zeros n')
  end.


(** The wording of the specification for the leading-zero rule: one or
    more leading zeros followed by at least one digit. *)
Definition zerosBeforeDigit (s : string) : Prop :=
  ∃ (k : nat) (d : ascii) (rest : string),
    s = zeros (S k) +:+ String d rest ∧ JsString.isDigit d = true.


(** First-occurrence deduplication by equality of rows, in the words of
    the specification: a row is kept unless an equal row came before. *)
Fixpoint keepFirst (before rows : list (list cell)) : list (list cell) :=
  match rows with
  | [] => []
  | row :: rows' =>
      if decide (row ∈ before) then keepFirst before rows'
      else row :: keepFirst (row :: before) rows'
  end.

(** The set of keys of a list of rows. *)
Definition keySet (rows : list (list cell)) : gset string :=
  list_to_set (Json.stringify <$> rows).

(** The header names of the template that occur in the data header. *)
Definition keptNames (dataHeaders templateHeaders : list string) : list string :=
  filter (λ h, h ∈ dataHeaders) templateHeaders.

(** What column projection yields: a string of any content, a non-zero
    number or [true]. *)
Definition projectedCell (c : cell) : Prop :=
  c = CStr EmptyString ∨ JsValue.truthy c = true.

(** Empty-string substitution in the words of the specification: the
    cell a row shows at a column index is the row's cell there, or the
    empty string when the row has no cell at the index or a falsy one. *)
Definition cellOrEmpty (row : list cell) (colIndex : nat) : cell :=
  match row !! colIndex with
  | Some c => if JsValue.truthy c then c else CStr EmptyString
  | None => CStr EmptyString
  end.

(** A file whose two lists are present. *)
Definition present (tbl : list (list cell)) (hs : list string) : UploadedFile :=
  {| data := Some tbl; headers := Some hs |}.

(** A file lacks a list when [data] or [headers] is undefined. *)
Definition lacksList (f : UploadedFile) : Prop := data f = None ∨ headers f = None.

(** Options with the five text flags as given and everything else off. *)
Definition textOptions (trim upper lower special zeros : bool) : cleaningOptions :=
  {| removeDuplicates := false; removeEmptyRows := false; removeEmptyColumns := false;
     trimWhitespace := trim; normalizeText := false; removeSpecialCharacters := special;
     standardizeDates := false; convertToUppercase := upper;
     convertToLowercase := lower; removeLeadingZeros := zeros |}.

(** The options [options] with the two case flags replaced. *)
Definition withCase (upper lower : bool) (options : cleaningOptions) : cleaningOptions :=
  {| removeDuplicates := removeDuplicates options;
     removeEmptyRows := removeEmptyRows options;
     removeEmptyColumns := removeEmptyColumns options;
     trimWhitespace := trimWhitespace options;
     normalizeText := normalizeText options;
     removeSpecialCharacters := removeSpecialCharacters options;
     standardizeDates := standardizeDates options;
     convertToUppercase := upper;
     convertToLowercase := lower;
     removeLeadingZeros := removeLeadingZeros options |}.

(** The four per-cell transforms in the words of the specification. *)
Definition trimStep (options : cleaningOptions) (s : string) : string :=
  if trimWhitespace options then JsString.trim s else s.

Definition caseStep (options : cleaningOptions) (s : string) : string :=
  if convertToUppercase options then JsString.toUpperCase s
  else if convertToLowercase options then JsString.toLowerCase s
  else s.

Definition specialStep (options : cleaningOptions) (s : string) : string :=
  if removeSpecialCharacters options then JsString.removeSpecial s else s.

Definition zerosStep (options : cleaningOptions) (s : string) : string :=
  if removeLeadingZeros options && JsString.testLeadingZeros s
  then JsString.stripZeros s else s.

(** A row of the projected width whose cells came through projection. *)
Definition wellShaped (width : nat) (row : list cell) : Prop :=
  length row = width ∧ Forall projectedCell row.

(** The three stages of step 3, one at a time. *)
Definition dedupStage (options : cleaningOptions) (rows : list (list cell))
    : list (list cell) :=
  if removeDuplicates options then uniqueRows (dedupRows 0 rows) else rows.

Definition emptyStage (options : cleaningOptions) (rows : list (list cell))
    : list (list cell) :=
  if removeEmptyRows options then filter (λ row, rowHasText row = true) rows else rows.

Definition textStage (options : cleaningOptions) (rows : list (list cell))
    : list (list cell) :=
  if anyTextOption options then transformRow options <$> rows else rows.

(** ** The upload list and its handlers *)

(** [UploadedFile] with its other fields (page.tsx, lines 29-40);
    [contents] holds [data] and [headers].  The [File] object and
    [columns], a copy of [headers], are read by none of the functions
    below.  [size] and [id] are renamed. *)
Record FileEntry : Type := {
  fileName : string;
  fileSize : Z;
  rowCount : option Z;
  fileId : string;
  isDataFile : option bool;
  isTemplateFile : option bool;
  contents : UploadedFile
}.

(** The truth value of an optional flag: undefined counts as false. *)
Definition flagSet (flag : option bool) : bool := default false flag.

(** [{...file, isDataFile: d, isTemplateFile: t}] *)
Definition withRoles (d t : option bool) (file : FileEntry) : FileEntry :=
  {| fileName := fileName file; fileSize := fileSize file; rowCount := rowCount file;
     fileId := fileId file; isDataFile := d; isTemplateFile := t;
     contents := contents file |}.

(** The comparator of [detectFileTypes] (lines 165-170): row count
    descending, then size descending; [rowCount || 0] reads an undefined
    count as 0. *)
Definition compareFiles (a b : FileEntry) : Z :=
  if decide (rowCount a = rowCount b) then (fileSize b - fileSize a)%Z
  else (default 0 (rowCount b) - default 0 (rowCount a))%Z.

(** [Array.prototype.sort] is stable, and for a consistent comparator
    the order it yields is determined; this insertion sort computes it. *)
Fixpoint insertBy {A} (cmp : A → A → Z) (x : A) (l : list A) : list A :=
  match l with
  | [] => [x]
  | y :: l' => if (cmp x y <=? 0)%Z then x :: l else y :: insertBy cmp x l'
  end.

Definition sortBy {A} (cmp : A → A → Z) (l : list A) : list A :=
  foldr (insertBy cmp) [] l.

(** [detectFileTypes] (lines 161-183).  The sorted copy has the length of
    [files], so the last branch of the match is never taken. *)
Definition detectFileTypes (files : list FileEntry) : list FileEntry :=
  if decide (length files < 2) then files
  else
    match sortBy compareFiles files with
    | first :: second :: _ =>
        (λ file,
           let isLargest := String.eqb (fileId file) (fileId first) in
           withRoles (Some isLargest)
             (Some (negb isLargest && String.eqb (fileId file) (fileId second)))
             file) <$> files
    | _ => files
    end.

(** The argument ['data' | 'template'] of [toggleFileType]. *)
Inductive fileRole : Type := DataRole | TemplateRole.

Definition isDataRole (r : fileRole) : bool :=
  match r with DataRole => true | TemplateRole => false end.

Definition isTemplateRole (r : fileRole) : bool :=
  match r with DataRole => false | TemplateRole => true end.

(** [toggleFileType] (lines 312-331), as a function of the list. *)
Definition toggleFileType (fileId0 : string) (newType : fileRole)
    (uploadedFiles : list FileEntry) : list FileEntry :=
  (λ file,
     if String.eqb (fileId file) fileId0 then
       withRoles (Some (isDataRole newType)) (Some (isTemplateRole newType)) file
     else if isDataRole newType && flagSet (isDataFile file) then
       withRoles (Some false) (isTemplateFile file) file
     else if isTemplateRole newType && flagSet (isTemplateFile file) then
       withRoles (isDataFile file) (Some false) file
     else file) <$> uploadedFiles.

(** The role a file holds, read as the page does. *)
Definition holdsRole (r : fileRole) (file : FileEntry) : bool :=
  match r with
  | DataRole => flagSet (isDataFile file)
  | TemplateRole => flagSet (isTemplateFile file)
  end.

Definition otherRole (r : fileRole) : fileRole :=
  match r with DataRole => TemplateRole | TemplateRole => DataRole end.

(** Two entries that differ at most in their role flags. *)
Definition sameFile (f g : FileEntry) : Prop :=
  fileName g = fileName f ∧ fileSize g = fileSize f ∧ rowCount g = rowCount f ∧
  fileId g = fileId f ∧ contents g = contents f.

(** [g] ranks at least as high as [f] in the order of [detectFileTypes]. *)
Definition ranksAtLeast (g f : FileEntry) : Prop :=
  (default 0 (rowCount f) < default 0 (rowCount g))%Z ∨
  (rowCount f = rowCount g ∧ (fileSize f ≤ fileSize g)%Z).

(** The part of the component state the step handlers read and write. *)
Record AppState : Type := {
  currentStep : Z;
  uploadedFiles : list FileEntry;
  cleaningResult : option CleaningResult;
  autoAdvanceCountdown : option Z
}.

(** [handleStepChange] (lines 346-360); the scrolling of the page is left
    out. *)
Definition handleStepChange (st : AppState) (newStep : Z) : AppState :=
  let canAccessStep2 := (2 <=? length (uploadedFiles st))%nat in
  let canAccessStep3 :=
    match cleaningResult st with Some _ => true | None => false end in
  if (newStep =? 1)%Z
     || ((newStep =? 2)%Z && ((newStep <=? currentStep st)%Z || canAccessStep2))
     || ((newStep =? 3)%Z && ((newStep <=? currentStep st)%Z || canAccessStep3))
  then {| currentStep := newStep; uploadedFiles := uploadedFiles st;
          cleaningResult := cleaningResult st; autoAdvanceCountdown := None |}
  else st.

(** [handleNextStep] (lines 362-366). *)
Definition handleNextStep (st : AppState) : AppState :=
  if (currentStep st =? 1)%Z && (2 <=? length (uploadedFiles st))%nat
  then handleStepChange st 2
  else st.

(** [removeFile] (lines 282-291): [filter((_, i) => i !== index)] deletes
    the entry at [index], or nothing when there is none. *)
Definition removeFile (index : nat) (st : AppState) : AppState :=
  let newFiles := delete index (uploadedFiles st) in
  let detectedFiles := detectFileTypes newFiles in
  {| currentStep := currentStep st;
     uploadedFiles := detectedFiles;
     cleaningResult := cleaningResult st;
     autoAdvanceCountdown :=
       if (length detectedFiles <? 2)%nat then None else autoAdvanceCountdown st |}.

(** What [handleCleanData] (lines 467-492) ends with: a message for
    [setError] or a result for [setCleaningResult]. *)
Inductive cleanOutcome : Type :=
  | ShowError (message : string)
  | ShowResult (result : CleaningResult).

Definition assignLabelsMessage : string :=
  "Please assign Template and Data labels to files before proceeding.".

(** [handleCleanData]: the two [find] calls, the call of [cleanData] and
    the [catch].  The delay, the processing flag and the change of step
    are left out. *)
Definition handleCleanData (uploadedFiles : list FileEntry)
    (options : cleaningOptions) : cleanOutcome :=
  match List.find (λ file, flagSet (isTemplateFile file)) uploadedFiles,
        List.find (λ file, flagSet (isDataFile file)) uploadedFiles with
  | Some templateFile, Some dataFile =>
      match cleanData (contents dataFile) (contents templateFile) options with
      | inr result => ShowResult result
      | inl (Error message) => ShowError ("Failed to process data: " +:+ message)
      end
  | _, _ => ShowError assignLabelsMessage
  end.

(** [l.includes(x)] on strings. *)
Definition includes (l : list string) (x : string) : bool :=
  existsb (String.eqb x) l.

(** The processing preview (lines 749-750). *)
Definition keptColumns (templateHeaders dataHeaders : list string) : list string :=
  filter (λ col, includes dataHeaders col = true) templateHeaders.

Definition removedColumns (templateHeaders dataHeaders : list string) : list string :=
  filter (λ col, includes templateHeaders col = false) dataHeaders.

(** [filename.split('.')]: never empty. *)
Fixpoint splitDot (s : string) : list string :=
  match s with
  | EmptyString => [EmptyString]
  | String c s' =>
      match splitDot s' with
      | seg :: segs =>
          if Ascii.eqb c "." then EmptyString :: seg :: segs
          else String c seg :: segs
      | [] => [EmptyString]
      end
  end.

(** [getFileExtension] (lines 300-302):
    [filename.split('.').pop()?.toUpperCase() || '']. *)
Definition getFileExtension (filename : string) : string :=
  default EmptyString (JsString.toUpperCase <$> last (splitDot filename)).

(** [s.endsWith(suffix)]: some tail of [s] is [suffix]. *)
Fixpoint endsWith (s suffix : string) : bool :=
  String.eqb s suffix ||
  match s with
  | EmptyString => false
  | String _ s' => endsWith s' suffix
  end.

(** What [parseFile] resolves for a .csv file (lines 246-250) once
    Papa.parse has returned [rows], every cell a string: the two lists of
    the file and its row count. *)
Definition parsedCsv (rows : list (list string)) : UploadedFile :=
  {| data := Some ((λ row : list string, CStr <$> row) <$> rows);
     headers := Some (hd [] rows) |}.

Definition csvRowCount (rows : list (list string)) : Z :=
  Z.max 0 (Z.of_nat (length rows) - 1).

(** Rows without the whitespace a trim would remove at either end. *)
Fixpoint endsWithSpace (s : string) : bool :=
  match s with
  | EmptyString => false
  | String c EmptyString => JsString.isWhiteSpace c
  | String _ s' => endsWithSpace s'
  end.

(** Options that differ from [options] in the three placeholder flags. *)
Definition withPlaceholders (emptyColumns normalize dates : bool)
    (options : cleaningOptions) : cleaningOptions :=
  {| removeDuplicates := removeDuplicates options;
     removeEmptyRows := removeEmptyRows options;
     removeEmptyColumns := emptyColumns;
     trimWhitespace := trimWhitespace options;
     normalizeText := normalize;
     removeSpecialCharacters := removeSpecialCharacters options;
     standardizeDates := dates;
     convertToUppercase := convertToUppercase options;
     convertToLowercase := convertToLowercase options;
     removeLeadingZeros := removeLeadingZeros options |}.

(** A dot, the separator of [getFileExtension]. *)
Definition isDot (c : ascii) : bool := Ascii.eqb c ".".

(** Sample entries for the upload list: an unparsed file and a parsed
    .csv file, the name serving as id. *)
Definition exampleFile (name : string) (bytes rows : Z) : FileEntry :=
  {| fileName := name; fileSize := bytes; rowCount := Some rows; fileId := name;
     isDataFile := None; isTemplateFile := None;
     contents := {| data := None; headers := None |} |}.

Definition exampleParsed (name : string) (bytes : Z) (table : list (list string))
    : FileEntry :=
  {| fileName := name; fileSize := bytes; rowCount := Some (csvRowCount table);
     fileId := name; isDataFile := None; isTemplateFile := None;
     contents := parsedCsv table |}.

(** The body of the [files.map] of [detectFileTypes], the two leading
    entries of the sorted copy given. *)
Definition markRoles (first second file : FileEntry) : FileEntry :=
  let isLargest := String.eqb (fileId file) (fileId first) in
  withRoles (Some isLargest)
    (Some (negb isLargest && String.eqb (fileId file) (fileId second))) file.

(** A list in the order of a comparator: no entry has a later entry
    that the comparator puts before it. *)
Fixpoint inOrder {A} (cmp : A → A → Z) (l : list A) : Prop :=
  match l with
  | [] => True
  | x :: l' => Forall (λ y, (cmp x y ≤ 0)%Z) l' ∧ inOrder cmp l'
  end.

(** * Properties *)

(** ** Characters and strings *)

Ltac each_ascii c :=
  destruct c as [[] [] [] [] [] [] [] []].

Lemma isWhiteSpace_toUpperChar c :
  JsString.isWhiteSpace (JsString.toUpperChar c) = JsString.isWhiteSpace c.
Proof. each_ascii c; reflexivity. Qed.

Lemma isWhiteSpace_toLowerChar c :
  JsString.isWhiteSpace (JsString.toLowerChar c) = JsString.isWhiteSpace c.
Proof. each_ascii c; reflexivity. Qed.

Lemma append_nil_l (s : string) : EmptyString +:+ s = s.
Proof. reflexivity. Qed.

Lemma append_cons (c : ascii) (a b : string) : String c a +:+ b = String c (a +:+ b).
Proof. reflexivity. Qed.

Ltac push_append := rewrite ?append_cons, ?append_nil_l in *.

Lemma append_assoc (a b c : string) : (a +:+ b) +:+ c = a +:+ (b +:+ c).
Proof. induction a as [|x a IH]; push_append; [done | by rewrite IH]. Qed.


Lemma allChars_mapChars p f s :
  (∀ c, p (f c) = p c) →
  JsString.allChars p (JsString.mapChars f s) = JsString.allChars p s.
Proof. intros Hf. induction s as [|c s IH]; simpl; [done | by rewrite Hf, IH]. Qed.







(** ** The pattern of the leading-zero rule *)

Lemma zerosThenDigit_spec s :
  JsString.zerosThenDigit s = true ↔
  ∃ (k : nat) (d : ascii) (rest : string),
    s = zeros k +:+ String d rest ∧ JsString.isDigit d = true.
Proof.
  induction s as [|c s IH]; simpl.
  - split; [done|]. intros (k & d & rest & H & _). destruct k; discriminate.
  - rewrite orb_true_iff, andb_true_iff, IH. split.
    + intros [Hd | [Hz (k & d & rest & -> & Hd)]].
      * by exists 0, c, s.
      * apply Ascii.eqb_eq in Hz as ->. by exists (S k), d, rest.
    + intros (k & d & rest & H & Hd). destruct k as [|k]; simpl in H; push_append.
      * injection H as -> ->. by left.
      * injection H as -> ->. right. split; [done|]. by exists k, d, rest.
Qed.

(** [/^0+\d/.test] holds exactly on the strings the specification
    describes, the zero run being of any positive length. *)
Lemma testLeadingZeros_spec s :
  JsString.testLeadingZeros s = true ↔ zerosBeforeDigit s.
Proof.
  unfold zerosBeforeDigit. destruct s as [|c s]; simpl.
  - split; [done|]. intros (k & d & rest & H & _). discriminate.
  - rewrite andb_true_iff, zerosThenDigit_spec. split.
    + intros [Hz (k & d & rest & -> & Hd)].
      apply Ascii.eqb_eq in Hz as ->. by exists k, d, rest.
    + intros (k & d & rest & H & Hd). simpl in H. push_append.
      injection H as -> ->. split; [done|]. by exists k, d, rest.
Qed.

Lemma stripZeros_zeros k s : JsString.stripZeros (zeros k +:+ s) = JsString.stripZeros s.
Proof. induction k as [|k IH]; simpl; push_append; done. Qed.

(** ** The row key determines the row *)

Lemma unquote_quoteChar c r : unquoteChar (Json.quoteChar c +:+ r) = Some (c, r).
Proof. each_ascii c; reflexivity. Qed.

Lemma quoteChars_inj s1 : ∀ s2 r1 r2,
  Json.quoteChars s1 +:+ String Json.dquote r1
  = Json.quoteChars s2 +:+ String Json.dquote r2 →
  s1 = s2 ∧ r1 = r2.
Proof.
  induction s1 as [|c1 s1 IH]; intros [|c2 s2] r1 r2 H; simpl in H;
    rewrite ?append_assoc in H.
  - push_append. by injection H as ->.
  - apply (f_equal unquoteChar) in H. by rewrite unquote_quoteChar in H.
  - apply (f_equal unquoteChar) in H. by rewrite unquote_quoteChar in H.
  - apply (f_equal unquoteChar) in H. rewrite !unquote_quoteChar in H.
    injection H as -> H. by destruct (IH _ _ _ H) as [-> ->].
Qed.

Lemma allChars_impl (p q : ascii → bool) s :
  (∀ c, p c = true → q c = true) →
  JsString.allChars p s = true → JsString.allChars q s = true.
Proof.
  intros Hpq. induction s as [|c s IH]; simpl; [done|].
  rewrite !andb_true_iff. intros [Hc Hs]. auto.
Qed.

(** Two runs of characters of one class, each followed by a character
    outside the class, are equal when the whole strings are. *)
Lemma span_unique (p : ascii → bool) s1 : ∀ s2 r1 r2,
  JsString.allChars p s1 = true → JsString.allChars p s2 = true →
  startsWith (λ c, negb (p c)) r1 = true →
  startsWith (λ c, negb (p c)) r2 = true →
  s1 +:+ r1 = s2 +:+ r2 → s1 = s2 ∧ r1 = r2.
Proof.
  induction s1 as [|c1 s1 IH]; intros [|c2 s2] r1 r2 H1 H2 Hr1 Hr2 H;
    simpl in H1, H2; push_append.
  - done.
  - subst r1. simpl in Hr1. apply andb_true_iff in H2 as [Hc _].
    rewrite Hc in Hr1. discriminate.
  - subst r2. simpl in Hr2. apply andb_true_iff in H1 as [Hc _].
    rewrite Hc in Hr2. discriminate.
  - apply andb_true_iff in H1 as [_ H1]. apply andb_true_iff in H2 as [_ H2].
    injection H as -> H. by destruct (IH _ _ _ H1 H2 Hr1 Hr2 H) as [-> ->].
Qed.

Lemma string_of_uint_digits d :
  JsString.allChars JsString.isDigit (NilEmpty.string_of_uint d) = true.
Proof. induction d; simpl; done. Qed.

Lemma numberToString_chars n :
  JsString.allChars isNumberChar (JsValue.numberToString n) = true.
Proof.
  assert (Hu : ∀ d, JsString.allChars isNumberChar (NilZero.string_of_uint d) = true).
  { intros d. apply allChars_impl with (p := JsString.isDigit).
    - intros c Hc. unfold isNumberChar. by rewrite Hc.
    - destruct d; try apply string_of_uint_digits. reflexivity. }
  unfold JsValue.numberToString. destruct (Z.to_int n); simpl; [apply Hu|].
  apply Hu.
Qed.

Lemma numberToString_head n :
  ∃ a s, JsValue.numberToString n = String a s ∧ isNumberChar a = true.
Proof.
  pose proof (numberToString_chars n) as H.
  destruct (JsValue.numberToString n) as [|a s] eqn:E.
  - exfalso. unfold JsValue.numberToString in E.
    destruct (Z.to_int n) as [d|d]; simpl in E; [|discriminate].
    destruct d; discriminate.
  - simpl in H. apply andb_true_iff in H as [Ha _]. by exists a, s.
Qed.

Lemma numberToString_inj n m :
  JsValue.numberToString n = JsValue.numberToString m → n = m.
Proof.
  assert (Hnil : ∀ z, Z.to_int z ≠ Decimal.Pos Decimal.Nil ∧
                      Z.to_int z ≠ Decimal.Neg Decimal.Nil).
  { intros [|p|p]; simpl; split; try discriminate;
      intros [= H]; by apply Unsigned.to_uint_nonnil in H. }
  unfold JsValue.numberToString. intros H.
  apply (f_equal NilZero.int_of_string) in H.
  destruct (Hnil n) as [? ?], (Hnil m) as [? ?].
  rewrite !NilZero.isi in H by done.
  injection H as H. apply (f_equal Z.of_int) in H.
  by rewrite !DecimalZ.of_to in H.
Qed.

Lemma stringifyCell_head c :
  ∃ a s, Json.stringifyCell c = String a s ∧ isDelimiter a = false.
Proof.
  destruct c as [s|n|[]| |]; simpl; try (eexists _, _; split; [reflexivity|done]).
  destruct (numberToString_head n) as (a & s & -> & Ha).
  exists a, s. split; [done|]. revert Ha. each_ascii a; vm_compute; congruence.
Qed.

(** An element followed by a delimiter can be read back, [undefined]
    apart (it prints as [null] does). *)
Lemma stringifyCell_inj a b r1 r2 :
  a ≠ CUndefined → b ≠ CUndefined →
  startsWith isDelimiter r1 = true → startsWith isDelimiter r2 = true →
  Json.stringifyCell a +:+ r1 = Json.stringifyCell b +:+ r2 →
  a = b ∧ r1 = r2.
Proof.
  intros Ha Hb Hr1 Hr2 H.
  assert (Hdelim : ∀ r, startsWith isDelimiter r = true →
                        startsWith (λ c, negb (isNumberChar c)) r = true).
  { intros [|c r]; simpl; [done|]. each_ascii c; vm_compute; congruence. }
  destruct a as [s1|n1|b1| |], b as [s2|n2|b2| |]; try done;
    try (destruct b1); try (destruct b2); simpl in H;
    unfold Json.quoteString in H; push_append;
    lazymatch goal with
    | |- CStr _ = CStr _ ∧ _ =>
        injection H as H; rewrite !append_assoc in H; push_append;
        by destruct (quoteChars_inj _ _ _ _ H) as [-> ->]
    | |- CNum _ = CNum _ ∧ _ =>
        destruct (span_unique isNumberChar _ _ _ _
          (numberToString_chars n1) (numberToString_chars n2)
          (Hdelim _ Hr1) (Hdelim _ Hr2) H) as [E ->];
        by rewrite (numberToString_inj _ _ E)
    | |- ?x = ?x ∧ _ => by injection H as ->
    | |- _ =>
        try discriminate H;
        lazymatch type of H with
        | context [JsValue.numberToString ?n] =>
            destruct (numberToString_head n) as (x & s & E & Hx);
            rewrite E in H; push_append; injection H as H _;
            first [rewrite H in Hx | rewrite <- H in Hx]; discriminate Hx
        end
    end.
Qed.

Lemma elements_cons c row :
  Json.elements (c :: row) =
  Json.stringifyCell c +:+
    match row with [] => "]"%string | _ :: _ => String "," (Json.elements row) end.
Proof. reflexivity. Qed.

Lemma elements_inj r1 : ∀ r2,
  Forall (λ c, c ≠ CUndefined) r1 → Forall (λ c, c ≠ CUndefined) r2 →
  Json.elements r1 = Json.elements r2 → r1 = r2.
Proof.
  induction r1 as [|c1 r1 IH]; intros [|c2 r2] H1 H2 H.
  - done.
  - exfalso. rewrite elements_cons in H.
    destruct (stringifyCell_head c2) as (a & s & E & Ha).
    rewrite E in H. simpl in H. push_append. by injection H as <- _.
  - exfalso. rewrite elements_cons in H.
    destruct (stringifyCell_head c1) as (a & s & E & Ha).
    rewrite E in H. simpl in H. push_append. by injection H as -> _.
  - rewrite !elements_cons in H.
    apply Forall_cons in H1 as [Hc1 H1]. apply Forall_cons in H2 as [Hc2 H2].
    apply stringifyCell_inj in H as [-> H]; [| done | done | by destruct r1 | by destruct r2].
    f_equal. destruct r1 as [|x r1], r2 as [|y r2]; try done.
    injection H as H. by apply IH.
Qed.

(** [JSON.stringify] is one-to-one on rows that hold no [undefined]. *)
Lemma stringify_inj r1 r2 :
  Forall (λ c, c ≠ CUndefined) r1 → Forall (λ c, c ≠ CUndefined) r2 →
  Json.stringify r1 = Json.stringify r2 → r1 = r2.
Proof. intros H1 H2 [= H]. by apply elements_inj. Qed.

(** ** Projection *)

Lemma orEmpty_projected c : projectedCell (JsValue.orEmpty c).
Proof.
  unfold projectedCell, JsValue.orEmpty.
  destruct (JsValue.truthy c) eqn:E; [by right | by left].
Qed.

Lemma orEmpty_id c : projectedCell c → JsValue.orEmpty c = c.
Proof.
  unfold JsValue.orEmpty. intros [E | E]; [by subst c | by rewrite E].
Qed.

Lemma projectedCell_defined c : projectedCell c → c ≠ CUndefined.
Proof. intros [E | E] Hc; subst c; done. Qed.

Lemma projectRow_projected cols row : Forall projectedCell (projectRow cols row).
Proof.
  unfold projectRow. apply Forall_fmap, Forall_true. intros i.
  apply orEmpty_projected.
Qed.

Lemma projectTable_projected cols tbl :
  Forall (Forall projectedCell) (projectTable cols tbl).
Proof.
  unfold projectTable. apply Forall_fmap, Forall_true. intros row.
  apply projectRow_projected.
Qed.

Lemma projected_defined row :
  Forall projectedCell row → Forall (λ c, c ≠ CUndefined) row.
Proof. intros H. eapply Forall_impl; [exact H | exact projectedCell_defined]. Qed.

(** ** First occurrences *)

Lemma elem_of_keepFirst rows : ∀ before row,
  row ∈ keepFirst before rows ↔ row ∈ rows ∧ row ∉ before.
Proof.
  induction rows as [|x rows IH]; intros before row; simpl.
  - rewrite elem_of_nil. tauto.
  - destruct (decide (x ∈ before)) as [Hx | Hx].
    + rewrite IH, elem_of_cons. split; [tauto|].
      intros [[-> | H] Hb]; [done | tauto].
    + rewrite !elem_of_cons, IH, not_elem_of_cons.
      destruct (decide (row = x)) as [-> | Hne]; tauto.
Qed.

Lemma NoDup_keepFirst rows : ∀ before, NoDup (keepFirst before rows).
Proof.
  induction rows as [|x rows IH]; intros before; simpl.
  - constructor.
  - destruct (decide (x ∈ before)); [apply IH|].
    constructor; [|apply IH]. rewrite elem_of_keepFirst, not_elem_of_cons. tauto.
Qed.

Lemma keepFirst_sublist rows : ∀ before, sublist (keepFirst before rows) rows.
Proof.
  induction rows as [|x rows IH]; intros before; simpl.
  - constructor.
  - destruct (decide (x ∈ before)); [apply sublist_cons | apply sublist_skip]; apply IH.
Qed.

(** Row by row: the next row is appended unless an equal row came
    before it. *)
Lemma keepFirst_snoc rows : ∀ before row,
  keepFirst before (rows ++ [row])
  = keepFirst before rows
    ++ (if decide (row ∈ before ∨ row ∈ rows) then [] else [row]).
Proof.
  induction rows as [|x rows IH]; intros before row; simpl.
  - apply decide_ext. rewrite elem_of_nil. tauto.
  - destruct (decide (x ∈ before)) as [Hx | Hx]; rewrite IH; simpl;
      repeat f_equal; apply decide_ext; rewrite !elem_of_cons; naive_solver.
Qed.

(** ** The deduplication loop *)

Lemma elem_of_keySet key rows :
  key ∈ keySet rows ↔ ∃ row, row ∈ rows ∧ Json.stringify row = key.
Proof.
  unfold keySet. rewrite elem_of_list_to_set, list_elem_of_fmap. naive_solver.
Qed.

(** On projected rows, a key was seen exactly when the row was. *)
Lemma key_seen row before :
  Forall projectedCell row → Forall (Forall projectedCell) before →
  Json.stringify row ∈ keySet before ↔ row ∈ before.
Proof.
  intros Hrow Hbefore. rewrite elem_of_keySet. split.
  - intros (row' & Hin & Hkey).
    rewrite Forall_forall in Hbefore.
    apply stringify_inj in Hkey as <-; auto using projected_defined.
  - intros Hin. by exists row.
Qed.

Lemma dedup_foldl rows : ∀ st before,
  Forall (Forall projectedCell) rows → Forall (Forall projectedCell) before →
  seenRows st = keySet before →
  uniqueRows (foldl dedupStep st rows) = uniqueRows st ++ keepFirst before rows ∧
  seenRows (foldl dedupStep st rows) = keySet (rows ++ before) ∧
  removed (foldl dedupStep st rows)
  = (removed st + Z.of_nat (length rows)
     - Z.of_nat (length (keepFirst before rows)))%Z.
Proof.
  induction rows as [|row rows IH]; intros st before Hrows Hbefore Hseen.
  - simpl. rewrite app_nil_r. repeat split; [done | lia].
  - apply Forall_cons in Hrows as [Hrow Hrows].
    cbn [foldl keepFirst]. unfold dedupStep at 2 4 6.
    rewrite Hseen.
    destruct (decide (Json.stringify row ∈ keySet before)) as [Hk | Hk];
      pose proof Hk as Hk'; rewrite (key_seen _ _ Hrow Hbefore) in Hk';
      destruct (decide (row ∈ before)) as [Hb | Hb]; try done.
    + destruct (IH {| uniqueRows := uniqueRows st; seenRows := seenRows st;
                      removed := removed st + 1 |} before Hrows Hbefore Hseen)
        as (Hu & Hs & Hr).
      rewrite <- Hseen, Hu, Hs, Hr. cbn [uniqueRows seenRows removed].
      repeat split.
      * apply set_eq. intros k. rewrite !elem_of_keySet.
        setoid_rewrite elem_of_app. setoid_rewrite elem_of_cons.
        naive_solver.
      * cbn [length]. lia.
    + destruct (IH {| uniqueRows := uniqueRows st ++ [row];
                      seenRows := {[Json.stringify row]} ∪ keySet before;
                      removed := removed st |} (row :: before) Hrows)
        as (Hu & Hs & Hr).
      * by constructor.
      * cbn [seenRows]. unfold keySet. by rewrite fmap_cons, list_to_set_cons.
      * rewrite Hu, Hs, Hr. cbn [uniqueRows seenRows removed].
        repeat split.
        -- by rewrite <- app_assoc.
        -- apply set_eq. intros k. rewrite !elem_of_keySet.
           setoid_rewrite elem_of_app. setoid_rewrite elem_of_cons.
           naive_solver.
        -- cbn [length]. lia.
Qed.

(** What the loop computes on projected rows: the first occurrences, the
    set of all keys, and the number of rows left out. *)
Lemma dedupRows_spec rows :
  Forall (Forall projectedCell) rows →
  uniqueRows (dedupRows 0 rows) = keepFirst [] rows ∧
  seenRows (dedupRows 0 rows) = keySet rows ∧
  removed (dedupRows 0 rows)
  = (Z.of_nat (length rows) - Z.of_nat (length (keepFirst [] rows)))%Z.
Proof.
  intros Hrows. unfold dedupRows.
  destruct (dedup_foldl rows
    {| uniqueRows := []; seenRows := ∅; removed := 0 |} [] Hrows) as (Hu & Hs & Hr).
  - constructor.
  - reflexivity.
  - rewrite Hu, Hs, Hr, app_nil_r. cbn [uniqueRows removed]. repeat split; lia.
Qed.

(** The distinct keys are as many as the first occurrences. *)
Lemma size_keySet rows :
  Forall (Forall projectedCell) rows →
  size (keySet rows) = length (keepFirst [] rows).
Proof.
  intros Hrows.
  assert (keySet rows = keySet (keepFirst [] rows)) as ->.
  { apply set_eq. intros k. rewrite !elem_of_keySet.
    setoid_rewrite elem_of_keepFirst. setoid_rewrite elem_of_nil. naive_solver. }
  unfold keySet. rewrite size_list_to_set, length_fmap; [done|].
  apply NoDup_fmap_2_strong; [|apply NoDup_keepFirst].
  intros r1 r2 H1 H2 Hk. rewrite Forall_forall in Hrows.
  apply elem_of_keepFirst in H1 as [H1 _]. apply elem_of_keepFirst in H2 as [H2 _].
  apply stringify_inj in Hk; auto using projected_defined.
Qed.

(** ** Column alignment *)

Lemma indexOf_Some x l i :
  indexOf x l = Some i → l !! i = Some x ∧ ∀ j, j < i → l !! j ≠ Some x.
Proof.
  revert i. induction l as [|y l IH]; intros i; simpl; [done|].
  destruct (String.eqb_spec y x) as [-> | Hne].
  - intros [= <-]. split; [done | lia].
  - destruct (indexOf x l) as [k|]; [|done]. intros [= <-].
    destruct (IH k eq_refl) as [Hk Hfirst]. split; [done|].
    intros [|j] Hj; simpl; [congruence | apply Hfirst; lia].
Qed.

Lemma indexOf_is_Some x l : is_Some (indexOf x l) ↔ x ∈ l.
Proof.
  induction l as [|y l IH]; simpl.
  - rewrite elem_of_nil. split; [by intros [? ?] | done].
  - rewrite elem_of_cons. destruct (String.eqb_spec y x) as [-> | Hne].
    + split; [by left | by eexists].
    + rewrite <- IH, fmap_is_Some. split; [by right | intros [? | ?]; congruence].
Qed.

Lemma indexOf_None x l : indexOf x l = None ↔ x ∉ l.
Proof. rewrite <- indexOf_is_Some, eq_None_not_Some. done. Qed.

(** The loop of step 1 in closed form: the indices are looked up for the
    template names that occur in the data header, in template order. *)
Lemma alignColumns_spec dataHeaders templateHeaders :
  alignColumns dataHeaders templateHeaders
  = (omap (λ h, indexOf h dataHeaders) templateHeaders,
     keptNames dataHeaders templateHeaders).
Proof.
  unfold alignColumns, keptNames.
  assert (∀ th acc,
    foldl (alignStep dataHeaders) acc th
    = (acc.1 ++ omap (λ h, indexOf h dataHeaders) th,
       acc.2 ++ filter (λ h, h ∈ dataHeaders) th)) as Hgen.
  { induction th as [|h th IH]; intros [cols kept]; simpl.
    - by rewrite !app_nil_r.
    - rewrite IH. unfold alignStep. rewrite filter_cons.
      destruct (indexOf h dataHeaders) as [i|] eqn:E; simpl.
      + rewrite decide_True by (apply indexOf_is_Some; by rewrite E).
        by rewrite <- !app_assoc.
      + rewrite decide_False by (by apply indexOf_None). done. }
  by rewrite Hgen.
Qed.

Lemma kept_indices dataHeaders templateHeaders :
  Forall2 (λ h i, indexOf h dataHeaders = Some i)
    (keptNames dataHeaders templateHeaders)
    (omap (λ h, indexOf h dataHeaders) templateHeaders).
Proof.
  unfold keptNames. induction templateHeaders as [|h th IH]; simpl; [constructor|].
  rewrite filter_cons.
  destruct (indexOf h dataHeaders) as [i|] eqn:E.
  - rewrite decide_True by (apply indexOf_is_Some; by rewrite E). by constructor.
  - rewrite decide_False by (by apply indexOf_None). done.
Qed.

(** ** The shape of the result *)

Lemma cleanRows_stages options rows :
  cleanRows options rows
  = (textStage options (emptyStage options (dedupStage options rows)),
     if removeDuplicates options then removed (dedupRows 0 rows) else 0%Z).
Proof.
  unfold cleanRows, textStage, emptyStage, dedupStage.
  by destruct (removeDuplicates options).
Qed.

Lemma stages_nil options :
  textStage options (emptyStage options (dedupStage options [])) = [].
Proof.
  unfold textStage, emptyStage, dedupStage.
  by destruct (removeDuplicates options), (removeEmptyRows options),
    (anyTextOption options).
Qed.

(** With both lists of both files present, [cleanData] returns; the
    header row is the projected first row, the data rows are the stages
    applied to the other projected rows. *)
Lemma cleanData_present od dh td th options :
  ∃ r, cleanData (present od dh) (present td th) options = inr r ∧
    columnsDeleted r
    = (Z.of_nat (length dh) - Z.of_nat (length (keptNames dh th)))%Z ∧
    totalRowsCleaned r = (Z.of_nat (length (cleanedData r)) - 1)%Z ∧
    head (cleanedData r) = head (projectTable (alignColumns dh th).1 od) ∧
    tail (cleanedData r)
    = textStage options (emptyStage options (dedupStage options
        (tail (projectTable (alignColumns dh th).1 od)))) ∧
    duplicateRowsRemoved r
    = (if removeDuplicates options
       then removed (dedupRows 0 (tail (projectTable (alignColumns dh th).1 od)))
       else 0%Z).
Proof.
  unfold cleanData, present. cbn [data headers].
  rewrite alignColumns_spec. cbn [fst snd].
  destruct (projectTable _ od) as [|header [|row rows]] eqn:E.
  - eexists. split; [reflexivity|]. cbn [columnsDeleted totalRowsCleaned
      cleanedData duplicateRowsRemoved head tail].
    rewrite stages_nil. repeat split. by destruct (removeDuplicates options).
  - eexists. split; [reflexivity|]. cbn [columnsDeleted totalRowsCleaned
      cleanedData duplicateRowsRemoved head tail].
    rewrite stages_nil. repeat split. by destruct (removeDuplicates options).
  - rewrite cleanRows_stages. eexists. split; [reflexivity|].
    cbn [columnsDeleted totalRowsCleaned cleanedData duplicateRowsRemoved head tail].
    repeat split.
Qed.

Lemma projectRow_header dataHeaders kept cols :
  Forall2 (λ h i, indexOf h dataHeaders = Some i) kept cols →
  projectRow cols (CStr <$> dataHeaders) = CStr <$> kept.
Proof.
  unfold projectRow. induction 1 as [|h i kept cols Hi _ IH]; [done|].
  rewrite !fmap_cons, IH. f_equal.
  apply indexOf_Some in Hi as [Hi _].
  rewrite list_lookup_fmap, Hi. simpl. by destruct h.
Qed.

(** C1. For a data table whose first row is its header list, the header
    row of the cleaned table is the list of the template's header names
    that occur in the data header, in template order and with nothing
    else; each one was matched at its first position in the data header. *)
Theorem header_in_template_order
    (dataHeaders templateHeaders : list string)
    (rows templateData : list (list cell)) (options : cleaningOptions) :
  ∃ r,
    cleanData (present ((CStr <$> dataHeaders) :: rows) dataHeaders)
              (present templateData templateHeaders) options = inr r ∧
    head (cleanedData r) = Some (CStr <$> keptNames dataHeaders templateHeaders) ∧
    (alignColumns dataHeaders templateHeaders).2
    = filter (λ h, h ∈ dataHeaders) templateHeaders ∧
    Forall2 (λ h i, dataHeaders !! i = Some h ∧ ∀ j, j < i → dataHeaders !! j ≠ Some h)
      (alignColumns dataHeaders templateHeaders).2
      (alignColumns dataHeaders templateHeaders).1.
Proof.
  destruct (cleanData_present ((CStr <$> dataHeaders) :: rows) dataHeaders
    templateData templateHeaders options) as (r & Hr & _ & _ & Hhead & _).
  exists r. split; [done|]. rewrite Hhead, alignColumns_spec. cbn [fst snd].
  repeat split.
  - unfold projectTable. rewrite fmap_cons. cbn [head]. f_equal.
    apply projectRow_header, kept_indices.
  - eapply Forall2_impl; [apply kept_indices|].
    intros h i Hi. by apply indexOf_Some.
Qed.

(** ** Counts *)

Lemma keptNames_length_le dataHeaders templateHeaders :
  NoDup templateHeaders →
  length (keptNames dataHeaders templateHeaders) ≤ length dataHeaders.
Proof.
  intros Hnd. apply submseteq_length, NoDup_submseteq.
  - by apply NoDup_filter.
  - intros h Hh. by apply list_elem_of_filter in Hh as [Hh _].
Qed.

(** C4, as the code has it.  [columnsDeleted] is the length of the data
    header minus the number of kept names, both counted with repetitions.
    It is not negative when the template names are pairwise distinct, and
    it is the number of distinct data headers minus the number of kept
    names when the data headers are pairwise distinct. *)
Theorem columnsDeleted_counts
    (dataHeaders templateHeaders : list string)
    (dataRows templateData : list (list cell)) (options : cleaningOptions) :
  ∃ r,
    cleanData (present dataRows dataHeaders)
              (present templateData templateHeaders) options = inr r ∧
    columnsDeleted r
    = (Z.of_nat (length dataHeaders)
       - Z.of_nat (length (keptNames dataHeaders templateHeaders)))%Z ∧
    (NoDup templateHeaders → (0 ≤ columnsDeleted r)%Z) ∧
    (NoDup dataHeaders →
     columnsDeleted r
     = (Z.of_nat (size (list_to_set dataHeaders : gset string))
        - Z.of_nat (length (keptNames dataHeaders templateHeaders)))%Z).
Proof.
  destruct (cleanData_present dataRows dataHeaders templateData templateHeaders
    options) as (r & Hr & Hcols & _).
  exists r. rewrite Hcols. repeat split; [done | |].
  - intros Hnd. pose proof (keptNames_length_le dataHeaders _ Hnd). lia.
  - intros Hnd. by rewrite size_list_to_set.
Qed.

Lemma columnsDeleted_counts_witness :
  ∃ r,
    cleanData (present [[CStr "Name"; CStr "Age"; CStr "Extra"]]
                 ["Name"; "Age"; "Extra"]%string)
              (present [] ["Name"; "Age"]%string) noOptions = inr r ∧
    (0 ≤ columnsDeleted r)%Z ∧
    columnsDeleted r
    = (Z.of_nat (size (list_to_set ["Name"; "Age"; "Extra"]%string : gset string))
       - Z.of_nat (length (keptNames ["Name"; "Age"; "Extra"]%string
                             ["Name"; "Age"]%string)))%Z.
Proof.
  destruct (columnsDeleted_counts ["Name"; "Age"; "Extra"]%string
    ["Name"; "Age"]%string [[CStr "Name"; CStr "Age"; CStr "Extra"]] [] noOptions)
    as (r & Hr & _ & Hpos & Hdistinct).
  exists r. split; [exact Hr|]. split.
  - apply Hpos. apply (bool_decide_unpack _). vm_compute. exact I.
  - apply Hdistinct. apply (bool_decide_unpack _). vm_compute. exact I.
Defined.

(** C4 as stated fails twice: a template that repeats a name drives the
    count below zero, and a data header that repeats a name is counted
    once per column, not once per distinct name. *)
Lemma columnsDeleted_not_distinct_count :
  (∃ r, cleanData (present [[CStr "A"]] ["A"]%string)
                  (present [[CStr "A"; CStr "A"]] ["A"; "A"]%string) noOptions = inr r ∧
        columnsDeleted r = (-1)%Z) ∧
  (∃ r, cleanData (present [[CStr "A"; CStr "A"]] ["A"; "A"]%string)
                  (present [[CStr "A"]] ["A"]%string) noOptions = inr r ∧
        columnsDeleted r = 1%Z ∧
        size (list_to_set ["A"; "A"]%string : gset string) = 1 ∧
        length (cleanedData r !!! 0) = 1).
Proof.
  split; eexists; (split; [reflexivity|]); vm_compute; auto.
Qed.

(** ** Rows keep their shape through the stages *)

Lemma projectedCell_CStr s : projectedCell (CStr s).
Proof. destruct s; [by left | by right]. Qed.

Lemma wellShaped_projectRow cols row : wellShaped (length cols) (projectRow cols row).
Proof.
  split; [|apply projectRow_projected]. unfold projectRow. by rewrite length_fmap.
Qed.

Lemma wellShaped_projected width rows :
  Forall (wellShaped width) rows → Forall (Forall projectedCell) rows.
Proof. intros H. eapply Forall_impl; [exact H|]. by intros row [_ ?]. Qed.

Lemma dedupStage_keepFirst options rows :
  Forall (Forall projectedCell) rows →
  dedupStage options rows
  = if removeDuplicates options then keepFirst [] rows else rows.
Proof.
  intros H. unfold dedupStage. destruct (removeDuplicates options); [|done].
  by destruct (dedupRows_spec rows H) as (-> & _).
Qed.

Lemma elem_of_dedupStage options rows row :
  Forall (Forall projectedCell) rows →
  row ∈ dedupStage options rows ↔ row ∈ rows.
Proof.
  intros H. rewrite dedupStage_keepFirst by done.
  destruct (removeDuplicates options); [|done].
  rewrite elem_of_keepFirst, elem_of_nil. tauto.
Qed.

Lemma elem_of_emptyStage options rows row :
  row ∈ emptyStage options rows → row ∈ rows.
Proof.
  unfold emptyStage. destruct (removeEmptyRows options); [|done].
  rewrite list_elem_of_filter. tauto.
Qed.

Lemma wellShaped_transformRow options width row :
  wellShaped width row → wellShaped width (transformRow options row).
Proof.
  intros [Hlen _]. unfold transformRow. split; [by rewrite length_fmap|].
  apply Forall_fmap, Forall_true. intros c. apply projectedCell_CStr.
Qed.

Lemma stages_wellShaped options width rows :
  Forall (wellShaped width) rows →
  Forall (wellShaped width)
    (textStage options (emptyStage options (dedupStage options rows))).
Proof.
  intros H.
  assert (Forall (wellShaped width) (emptyStage options (dedupStage options rows)))
    as Hkept.
  { rewrite Forall_forall in H. apply Forall_forall. intros row Hrow.
    apply H. apply elem_of_emptyStage in Hrow.
    apply elem_of_dedupStage in Hrow; [done|].
    eapply wellShaped_projected. by apply Forall_forall. }
  unfold textStage. destruct (anyTextOption options); [|done].
  apply Forall_fmap. eapply Forall_impl; [exact Hkept|].
  intros row. apply wellShaped_transformRow.
Qed.

Lemma removed_nonneg rows :
  Forall (Forall projectedCell) rows → (0 ≤ removed (dedupRows 0 rows))%Z.
Proof.
  intros H. destruct (dedupRows_spec rows H) as (_ & _ & ->).
  pose proof (sublist_length _ _ (keepFirst_sublist rows [])). lia.
Qed.

Lemma Forall_head_tail {A} (P : A → Prop) (l : list A) :
  (∀ x, head l = Some x → P x) → Forall P (tail l) → Forall P l.
Proof. destruct l as [|x l]; [constructor|]. intros Hx Hl. constructor; auto. Qed.

(** Every row of a result has the width of the kept header and holds
    projected cells only; the duplicate count is not negative. *)
Lemma cleanData_wellShaped od dh td th options r :
  cleanData (present od dh) (present td th) options = inr r →
  Forall (wellShaped (length (keptNames dh th))) (cleanedData r) ∧
  (0 ≤ duplicateRowsRemoved r)%Z.
Proof.
  intros Hr.
  destruct (cleanData_present od dh td th options)
    as (r' & Hr' & _ & _ & Hhead & Htail & Hdup).
  rewrite Hr in Hr'. injection Hr' as <-.
  pose proof (kept_indices dh th) as Hlen. apply Forall2_length in Hlen.
  rewrite alignColumns_spec in Hhead, Htail, Hdup. cbn [fst] in Hhead, Htail, Hdup.
  assert (Forall (wellShaped (length (keptNames dh th)))
            (projectTable (omap (λ h, indexOf h dh) th) od)) as Hproj.
  { unfold projectTable. apply Forall_fmap, Forall_true. intros row.
    rewrite Hlen. apply wellShaped_projectRow. }
  assert (Forall (wellShaped (length (keptNames dh th)))
            (tail (projectTable (omap (λ h, indexOf h dh) th) od))) as Htl.
  { destruct (projectTable _ od); [constructor|]. by apply Forall_cons in Hproj as [_ ?]. }
  split.
  - apply Forall_head_tail.
    + intros x Hx. rewrite Hhead in Hx. rewrite Forall_forall in Hproj.
      apply Hproj. by apply head_Some_elem_of.
    + rewrite Htail. by apply stages_wellShaped.
  - rewrite Hdup. destruct (removeDuplicates options); [|done].
    eapply removed_nonneg, wellShaped_projected, Htl.
Qed.

(** ** Short tables *)

Lemma length_projectTable cols tbl : length (projectTable cols tbl) = length tbl.
Proof. unfold projectTable. by rewrite length_fmap. Qed.

(** C10. When the projected table has fewer than two rows, the result is
    the projected table itself whatever the options are, with a duplicate
    count of 0; and a data list that is present but empty yields no error
    and a row count of -1. *)
Theorem short_table_skips_options
    (dataHeaders templateHeaders : list string)
    (originalData templateData : list (list cell)) (options : cleaningOptions) :
  (length (projectTable (alignColumns dataHeaders templateHeaders).1 originalData) < 2 →
   cleanData (present originalData dataHeaders)
             (present templateData templateHeaders) options
   = inr {| totalRowsCleaned := Z.of_nat (length originalData) - 1;
            columnsDeleted :=
              Z.of_nat (length dataHeaders)
              - Z.of_nat (length (alignColumns dataHeaders templateHeaders).2);
            duplicateRowsRemoved := 0;
            cleanedData :=
              projectTable (alignColumns dataHeaders templateHeaders).1 originalData |}) ∧
  (∃ r, cleanData (present [] dataHeaders)
                  (present templateData templateHeaders) options = inr r ∧
        totalRowsCleaned r = (-1)%Z ∧ cleanedData r = [] ∧
        duplicateRowsRemoved r = 0%Z).
Proof.
  split.
  - intros Hshort. unfold cleanData, present. cbn [data headers].
    destruct (alignColumns dataHeaders templateHeaders) as [cols kept]. cbn [fst snd] in *.
    pose proof (length_projectTable cols originalData) as Hlen.
    destruct (projectTable cols originalData) as [|header [|row rows]];
      cbn [length] in *; [by rewrite <- Hlen | by rewrite <- Hlen | lia].
  - unfold cleanData, present. cbn [data headers].
    destruct (alignColumns dataHeaders templateHeaders) as [cols kept].
    eexists. split; [reflexivity|]. done.
Qed.

Lemma short_table_skips_options_witness :
  cleanData (present [[CStr "Name"; CStr " x "]] ["Name"; "Note"]%string)
            (present [] ["Note"]%string)
            {| removeDuplicates := true; removeEmptyRows := true;
               removeEmptyColumns := true; trimWhitespace := true;
               normalizeText := true; removeSpecialCharacters := true;
               standardizeDates := true; convertToUppercase := true;
               convertToLowercase := true; removeLeadingZeros := true |}
  = inr {| totalRowsCleaned := 0; columnsDeleted := 1; duplicateRowsRemoved := 0;
           cleanedData := [[CStr " x "]] |}.
Proof.
  apply (proj1 (short_table_skips_options ["Name"; "Note"]%string ["Note"]%string
    [[CStr "Name"; CStr " x "]] [] _)).
  vm_compute. lia.
Defined.

(** ** Projection twice *)

Lemma orEmpty_idem c : JsValue.orEmpty (JsValue.orEmpty c) = JsValue.orEmpty c.
Proof. apply orEmpty_id, orEmpty_projected. Qed.

Lemma filter_agree {A} (P Q : A → Prop) `{∀ x, Decision (P x)} `{∀ x, Decision (Q x)}
    (l : list A) :
  (∀ x, x ∈ l → P x ↔ Q x) → filter P l = filter Q l.
Proof.
  induction l as [|x l IH]; intros HPQ; [done|].
  rewrite !filter_cons, IH by (intros y Hy; apply HPQ; by right).
  pose proof (HPQ x (list_elem_of_here x l)) as Hx.
  destruct (decide (P x)), (decide (Q x)); tauto || done.
Qed.

Lemma keptNames_again dataHeaders templateHeaders :
  keptNames (keptNames dataHeaders templateHeaders) templateHeaders
  = keptNames dataHeaders templateHeaders.
Proof.
  unfold keptNames. apply filter_agree. intros h Hh.
  rewrite list_elem_of_filter. tauto.
Qed.

Lemma projectRow_twice dataHeaders kept cols cols' row :
  Forall2 (λ h i, indexOf h dataHeaders = Some i) kept cols →
  Forall2 (λ h k, indexOf h kept = Some k) kept cols' →
  projectRow cols' (projectRow cols row) = projectRow cols row.
Proof.
  intros Hcols Hcols'. apply list_eq. intros j. unfold projectRow.
  rewrite !list_lookup_fmap.
  destruct (kept !! j) as [h|] eqn:Ej.
  - destruct (Forall2_lookup_l _ _ _ _ _ Hcols Ej) as (i & Hi & Hhi).
    destruct (Forall2_lookup_l _ _ _ _ _ Hcols' Ej) as (k & Hk & Hhk).
    apply indexOf_Some in Hhk as [Hhk _].
    destruct (Forall2_lookup_l _ _ _ _ _ Hcols Hhk) as (i' & Hi' & Hhi').
    assert (i' = i) as -> by congruence.
    rewrite Hk, Hi. cbn [fmap option_fmap option_map].
    rewrite list_lookup_fmap, Hi'. cbn [fmap option_fmap option_map default].
    unfold id. by rewrite orEmpty_idem.
  - apply lookup_ge_None in Ej.
    apply Forall2_length in Hcols, Hcols'.
    rewrite (proj2 (lookup_ge_None cols j)) by lia.
    rewrite (proj2 (lookup_ge_None cols' j)) by lia. done.
Qed.

Lemma cleanData_noOptions od dh td th :
  cleanData (present od dh) (present td th) noOptions
  = inr {| totalRowsCleaned := Z.of_nat (length od) - 1;
           columnsDeleted :=
             Z.of_nat (length dh) - Z.of_nat (length (alignColumns dh th).2);
           duplicateRowsRemoved := 0;
           cleanedData := projectTable (alignColumns dh th).1 od |}.
Proof.
  unfold cleanData, present. cbn [data headers].
  destruct (alignColumns dh th) as [cols kept]. cbn [fst snd].
  pose proof (length_projectTable cols od) as Hlen.
  destruct (projectTable cols od) as [|header [|row rows]]; by rewrite <- Hlen.
Qed.

(** C8. Projecting a data table against a template and projecting the
    outcome, read as a table whose first row is its header list, against
    the same template gives the outcome of the first projection: the same
    names are kept and every row is unchanged.  The same holds for
    [cleanData] run twice with every option off. *)
Theorem projection_idempotent
    (dataHeaders templateHeaders : list string)
    (rows templateData : list (list cell)) :
  let kept := (alignColumns dataHeaders templateHeaders).2 in
  let once :=
    projectTable (alignColumns dataHeaders templateHeaders).1
      ((CStr <$> dataHeaders) :: rows) in
  head once = Some (CStr <$> kept) ∧
  (alignColumns kept templateHeaders).2 = kept ∧
  projectTable (alignColumns kept templateHeaders).1 once = once ∧
  ∃ r1 r2,
    cleanData (present ((CStr <$> dataHeaders) :: rows) dataHeaders)
              (present templateData templateHeaders) noOptions = inr r1 ∧
    cleanData (present (cleanedData r1) kept)
              (present templateData templateHeaders) noOptions = inr r2 ∧
    cleanedData r2 = cleanedData r1.
Proof.
  intros kept once.
  assert (Hkept : kept = keptNames dataHeaders templateHeaders)
    by (unfold kept; by rewrite alignColumns_spec).
  assert (Htwice : projectTable (alignColumns kept templateHeaders).1 once = once).
  { unfold once. rewrite Hkept, !alignColumns_spec. cbn [fst].
    unfold projectTable. rewrite <- list_fmap_compose. apply list_fmap_ext.
    intros _ row _. cbn [compose].
    eapply projectRow_twice; [apply kept_indices|].
    pose proof (kept_indices (keptNames dataHeaders templateHeaders) templateHeaders) as H.
    by rewrite keptNames_again in H. }
  repeat split.
  - unfold once. rewrite Hkept, alignColumns_spec. cbn [fst].
    unfold projectTable. rewrite fmap_cons. cbn [head]. f_equal.
    apply projectRow_header, kept_indices.
  - rewrite Hkept, alignColumns_spec. cbn [snd]. apply keptNames_again.
  - exact Htwice.
  - eexists _, _. rewrite !cleanData_noOptions. cbn [cleanedData].
    repeat split. exact Htwice.
Qed.

(** ** Falsy cells *)

Lemma projectRow_lookup cols row k i :
  cols !! k = Some i →
  projectRow cols row !! k = Some (JsValue.orEmpty (default CUndefined (row !! i))).
Proof. intros Hk. unfold projectRow. by rewrite list_lookup_fmap, Hk. Qed.

Lemma projectRow_agree cols row1 row2 :
  (∀ i, JsValue.orEmpty (default CUndefined (row1 !! i))
        = JsValue.orEmpty (default CUndefined (row2 !! i))) →
  projectRow cols row1 = projectRow cols row2.
Proof. intros H. unfold projectRow. apply list_fmap_ext. intros _ i _. apply H. Qed.

(** C9. Projection replaces by the empty string every cell that is
    present and falsy (0, false, null, the empty string), as it does a
    cell that is missing.  Hence no row of a result holds the number 0,
    whatever the options, and two rows that differ only in having 0 where
    the other has no cell project to rows with the same key. *)
Theorem falsy_cells_become_empty :
  (∀ cols row k i c,
     cols !! k = Some i → row !! i = Some c →
     c ∈ [CNum 0; CBool false; CNull; CStr EmptyString] →
     projectRow cols row !! k = Some (CStr EmptyString)) ∧
  (∀ cols row k i,
     cols !! k = Some i → row !! i = None →
     projectRow cols row !! k = Some (CStr EmptyString)) ∧
  (∀ od dh td th options r row,
     cleanData (present od dh) (present td th) options = inr r →
     row ∈ cleanedData r → CNum 0 ∉ row) ∧
  (∀ cols before after,
     Json.stringify (projectRow cols (before ++ CNum 0 :: after))
     = Json.stringify (projectRow cols (before ++ CUndefined :: after))) ∧
  (∀ cols before,
     Json.stringify (projectRow cols (before ++ [CNum 0]))
     = Json.stringify (projectRow cols before)).
Proof.
  repeat split.
  - intros cols row k i c Hk Hi Hc. rewrite (projectRow_lookup _ _ _ _ Hk), Hi.
    rewrite !elem_of_cons, elem_of_nil in Hc.
    by destruct Hc as [-> | [-> | [-> | [-> | []]]]].
  - intros cols row k i Hk Hi. by rewrite (projectRow_lookup _ _ _ _ Hk), Hi.
  - intros od dh td th options r row Hr Hrow Hzero.
    destruct (cleanData_wellShaped _ _ _ _ _ _ Hr) as [Hshape _].
    rewrite Forall_forall in Hshape. destruct (Hshape row Hrow) as [_ Hcells].
    rewrite Forall_forall in Hcells. by destruct (Hcells _ Hzero).
  - intros cols before after. f_equal. apply projectRow_agree. intros i.
    destruct (lt_eq_lt_dec i (length before)) as [[Hlt | ->] | Hgt].
    + by rewrite !lookup_app_l.
    + by rewrite !list_lookup_middle.
    + rewrite !lookup_app_r by lia.
      destruct (i - length before) as [|n] eqn:E; [lia | done].
  - intros cols before. f_equal. apply projectRow_agree. intros i.
    destruct (lt_eq_lt_dec i (length before)) as [[Hlt | ->] | Hgt].
    + by rewrite lookup_app_l.
    + rewrite list_lookup_middle by done.
      by rewrite (proj2 (lookup_ge_None before (length before))).
    + rewrite !(proj2 (lookup_ge_None _ i)); [done | lia |].
      rewrite length_app. simpl. lia.
Qed.

Lemma falsy_cells_become_empty_witness :
  projectRow [1; 0] [CStr "id7"; CNum 0] !! 0 = Some (CStr EmptyString) ∧
  projectRow [1; 0] [CStr "id7"] !! 0 = Some (CStr EmptyString).
Proof.
  destruct falsy_cells_become_empty as (Hfalsy & Hmissing & _).
  split.
  - apply (Hfalsy [1; 0] [CStr "id7"; CNum 0] 0 1 (CNum 0)).
    + reflexivity.
    + reflexivity.
    + apply (bool_decide_unpack _). vm_compute. exact I.
  - apply (Hmissing [1; 0] [CStr "id7"] 0 1); reflexivity.
Defined.

(** ** Text transforms *)

Lemma transformText_steps options s :
  transformText options s
  = zerosStep options (specialStep options (caseStep options (trimStep options s))).
Proof. reflexivity. Qed.

(** C6. With both case flags on, [cleanData] returns what it returns
    with uppercase alone.  A cell is trimmed, then case-converted, then
    stripped of special characters, then of leading zeros, each step only
    if its flag is on: with a text option on, every data row of the result
    is a row that passed the duplicate and empty-row stages with each cell
    replaced by its text put through the four steps in that order.  With
    trim and uppercase on, a data cell of two spaces, bob and a space
    comes out of [cleanData] as BOB, with or without the lowercase flag;
    a cell of an exclamation mark, a space and a keeps its space when trim
    and remove-special-characters are on, and an exclamation mark before
    007 leaves 7 when remove-special-characters and remove-leading-zeros
    are on. *)
Theorem uppercase_wins_and_order_fixed
    (dataFile templateFile : UploadedFile) (options : cleaningOptions) :
  cleanData dataFile templateFile (withCase true true options)
  = cleanData dataFile templateFile (withCase true false options) ∧
  (∀ s, transformText (withCase true true options) s
        = transformText (withCase true false options) s) ∧
  (∀ c, transformCell options c
        = CStr (zerosStep options (specialStep options (caseStep options
                 (trimStep options (JsValue.textOf c)))))) ∧
  (∀ (originalData templateData : list (list cell))
     (dataHeaders templateHeaders : list string),
     anyTextOption options = true →
     ∃ r,
       cleanData (present originalData dataHeaders)
                 (present templateData templateHeaders) options = inr r ∧
       tail (cleanedData r)
       = (λ row : list cell,
            (λ c, CStr (zerosStep options (specialStep options (caseStep options
                          (trimStep options (JsValue.textOf c)))))) <$> row)
         <$> emptyStage options (dedupStage options
               (tail (projectTable (alignColumns dataHeaders templateHeaders).1
                        originalData)))) ∧
  cleanData (present [[CStr "Name"]; [CStr "  bob "]] ["Name"]%string)
            (present [] ["Name"]%string) (textOptions true true false false false)
  = inr {| totalRowsCleaned := 1; columnsDeleted := 0; duplicateRowsRemoved := 0;
           cleanedData := [[CStr "Name"]; [CStr "BOB"]] |} ∧
  cleanData (present [[CStr "Name"]; [CStr "  bob "]] ["Name"]%string)
            (present [] ["Name"]%string) (textOptions true true true false false)
  = inr {| totalRowsCleaned := 1; columnsDeleted := 0; duplicateRowsRemoved := 0;
           cleanedData := [[CStr "Name"]; [CStr "BOB"]] |} ∧
  cleanData (present [[CStr "Name"]; [CStr "  Bob "]] ["Name"]%string)
            (present [] ["Name"]%string) (textOptions true false true false false)
  = inr {| totalRowsCleaned := 1; columnsDeleted := 0; duplicateRowsRemoved := 0;
           cleanedData := [[CStr "Name"]; [CStr "bob"]] |} ∧
  cleanData (present [[CStr "Note"; CStr "Id"]; [CStr "! a"; CStr "!007"]]
                     ["Note"; "Id"]%string)
            (present [] ["Note"; "Id"]%string) (textOptions true false false true true)
  = inr {| totalRowsCleaned := 1; columnsDeleted := 0; duplicateRowsRemoved := 0;
           cleanedData := [[CStr "Note"; CStr "Id"]; [CStr " a"; CStr "7"]] |} ∧
  transformCell (textOptions true true false false false) (CStr "  bob ") = CStr "BOB" ∧
  transformCell (textOptions true true true false false) (CStr "  bob ") = CStr "BOB" ∧
  transformCell (textOptions true false false true false) (CStr "! a") = CStr " a" ∧
  transformCell (textOptions false false false true true) (CStr "!007") = CStr "7".
Proof.
  split.
  { destruct options as [dup emp ecol [] norm spec dates up low zer]; reflexivity. }
  split; [done|]. split; [done|]. split; [|repeat split].
  intros originalData templateData dataHeaders templateHeaders Hany.
  destruct (cleanData_present originalData dataHeaders templateData templateHeaders
    options) as (r & Hr & _ & _ & _ & Htail & _).
  exists r. split; [exact Hr|]. rewrite Htail. unfold textStage. by rewrite Hany.
Qed.

(** ** Leading zeros *)

Lemma stripZeros_nonzero s :
  startsWith JsString.isZero s = false → JsString.stripZeros s = s.
Proof. destruct s as [|c s]; simpl; [done|]. by intros ->. Qed.

Lemma zeros_snoc k : zeros (S k) = zeros k +:+ String "0" EmptyString.
Proof.
  induction k as [|k IH]; [done|].
  cbn [zeros] in *. push_append. by rewrite <- IH.
Qed.

Lemma zeros_cons k s : zeros (S k) +:+ s = String "0" (zeros k +:+ s).
Proof. reflexivity. Qed.

(** Every text is a run of zeros, possibly none, and a rest that does
    not start with a zero. *)
Lemma zeros_decompose s :
  ∃ k rest, s = zeros k +:+ rest ∧ startsWith JsString.isZero rest = false.
Proof.
  induction s as [|c s (k & rest & Hs & Hrest)].
  - by exists 0, EmptyString.
  - destruct (JsString.isZero c) eqn:Hc.
    + apply Ascii.eqb_eq in Hc as ->. exists (S k), rest.
      rewrite zeros_cons. by rewrite <- Hs.
    + by exists 0, (String c s).
Qed.

(** The test /^0+\d/ on such a text: two zeros are enough, one zero
    needs a digit behind it. *)
Lemma testLeadingZeros_zeros k rest :
  startsWith JsString.isZero rest = false →
  JsString.testLeadingZeros (zeros k +:+ rest)
  = Nat.leb 2 k || (Nat.eqb k 1 && startsWith JsString.isDigit rest).
Proof.
  intros Hrest. destruct k as [|[|k]].
  - change (zeros 0 +:+ rest) with rest.
    destruct rest as [|c r]; [done|]. cbn in Hrest |- *. by rewrite Hrest.
  - rewrite zeros_cons. change (zeros 0 +:+ rest) with rest.
    destruct rest as [|c r]; [done|]. cbn in Hrest |- *. rewrite Hrest.
    by rewrite orb_false_r.
  - by rewrite !zeros_cons.
Qed.

(** C3.  What remove-leading-zeros does to the text [v] that reaches the
    last step.  Write [v] as [k] zeros followed by a rest that does not
    start with a zero.  The rest alone is returned when [k] is at least
    2, or when [k] is 1 and the rest starts with a digit; [v] is returned
    as it is otherwise.  So a run of zeros before a digit is deleted (007
    becomes 7, 0042 becomes 42), a text that does not start with a zero
    is unchanged, and so are 0 and 0a1.  A text that starts with two or
    more zeros loses them whatever follows, where C3 has a run that no
    digit follows left alone: 00 becomes the empty string and not 00,
    000 becomes the empty string, 00.5 becomes .5 and 00a becomes a. *)
Theorem leading_zero_rule (options : cleaningOptions) (s : string) :
  removeLeadingZeros options = true →
  let v := specialStep options (caseStep options (trimStep options s)) in
  (∃ k rest, v = zeros k +:+ rest ∧ startsWith JsString.isZero rest = false) ∧
  (∀ k rest, v = zeros k +:+ rest → startsWith JsString.isZero rest = false →
     transformText options s
     = if Nat.leb 2 k || (Nat.eqb k 1 && startsWith JsString.isDigit rest)
       then rest else v) ∧
  (zerosBeforeDigit v → transformText options s = JsString.stripZeros v) ∧
  (¬ zerosBeforeDigit v → transformText options s = v) ∧
  (∀ k d rest, JsString.isDigit d = true → JsString.isZero d = false →
     JsString.stripZeros (zeros (S k) +:+ String d rest) = String d rest) ∧
  (∀ k rest, startsWith JsString.isZero rest = false →
     JsString.stripZeros (zeros k +:+ rest) = rest) ∧
  (∀ k, zerosBeforeDigit (zeros (S (S k))) ∧
        JsString.stripZeros (zeros (S (S k))) = EmptyString) ∧
  transformCell (textOptions false false false false true) (CStr "007") = CStr "7" ∧
  transformCell (textOptions false false false false true) (CStr "0042") = CStr "42" ∧
  transformCell (textOptions false false false false true) (CStr "0") = CStr "0" ∧
  transformCell (textOptions false false false false true) (CStr "0a1") = CStr "0a1" ∧
  transformCell (textOptions false false false false true) (CStr "7") = CStr "7" ∧
  transformCell (textOptions false false false false true) (CStr "0.5") = CStr "0.5" ∧
  transformCell (textOptions false false false false true) (CStr "00")
  = CStr EmptyString ∧
  transformCell (textOptions false false false false true) (CStr "000")
  = CStr EmptyString ∧
  transformCell (textOptions false false false false true) (CStr "00.5") = CStr ".5" ∧
  transformCell (textOptions false false false false true) (CStr "00a") = CStr "a".
Proof.
  intros Hon v. rewrite transformText_steps. fold v. unfold zerosStep. rewrite Hon.
  cbn [andb].
  assert (Hstrip : ∀ k rest, startsWith JsString.isZero rest = false →
            JsString.stripZeros (zeros k +:+ rest) = rest).
  { intros k rest Hrest. by rewrite stripZeros_zeros, stripZeros_nonzero. }
  split; [apply zeros_decompose|].
  split.
  { intros k rest -> Hrest.
    by rewrite testLeadingZeros_zeros, Hstrip. }
  split.
  { intros Hv. apply testLeadingZeros_spec in Hv. by rewrite Hv. }
  split.
  { intros Hv. rewrite <- testLeadingZeros_spec in Hv.
    by destruct (JsString.testLeadingZeros v). }
  split.
  { intros k d rest _ Hd. apply Hstrip. exact Hd. }
  split; [exact Hstrip|].
  split.
  { intros k. split.
    - exists k, "0"%char, EmptyString. split; [apply zeros_snoc | done].
    - clear. induction k as [|k IH]; [done|]. exact IH. }
  repeat split.
Qed.

Lemma leading_zero_rule_witness :
  transformText (textOptions true false false false true) " 0042 " = "42"%string ∧
  transformText (textOptions true false false false true) " 00.5 " = ".5"%string ∧
  transformText (textOptions true false false false true) " 00 " = EmptyString.
Proof.
  split; [|split].
  - destruct (leading_zero_rule (textOptions true false false false true) " 0042 "
      eq_refl) as (_ & Hrule & _).
    exact (Hrule 2 "42"%string eq_refl eq_refl).
  - destruct (leading_zero_rule (textOptions true false false false true) " 00.5 "
      eq_refl) as (_ & Hrule & _).
    exact (Hrule 2 ".5"%string eq_refl eq_refl).
  - destruct (leading_zero_rule (textOptions true false false false true) " 00 "
      eq_refl) as (_ & Hrule & _).
    exact (Hrule 2 EmptyString eq_refl eq_refl).
Defined.

(** ** Empty rows *)








Lemma tail_projected cols od :
  Forall (Forall projectedCell) (tail (projectTable cols od)).
Proof.
  pose proof (projectTable_projected cols od) as H.
  destruct (projectTable cols od); [constructor|]. by apply Forall_cons in H as [_ ?].
Qed.










(** ** Duplicates *)

(** C2, as the code has it.  With remove-duplicates on, the projected
    data rows are reduced to their first occurrences, compared by
    equality of rows and kept in their order, before the empty-row filter
    and the text transforms; [duplicateRowsRemoved] is the number of
    projected data rows minus the number of distinct row keys.  The rows
    that leave the deduplication are pairwise distinct, and so are the
    data rows of the result when no text option is on. *)
Theorem first_occurrences_kept_before_transforms
    (dataHeaders templateHeaders : list string)
    (originalData templateData : list (list cell)) (options : cleaningOptions) :
  removeDuplicates options = true →
  ∃ r,
    cleanData (present originalData dataHeaders)
              (present templateData templateHeaders) options = inr r ∧
    let projected :=
      tail (projectTable (alignColumns dataHeaders templateHeaders).1 originalData) in
    tail (cleanedData r)
    = textStage options (emptyStage options (keepFirst [] projected)) ∧
    (∀ earlier row,
       keepFirst [] (earlier ++ [row])
       = keepFirst [] earlier ++ (if decide (row ∈ earlier) then [] else [row])) ∧
    NoDup (keepFirst [] projected) ∧
    sublist (keepFirst [] projected) projected ∧
    (∀ row, row ∈ projected → row ∈ keepFirst [] projected) ∧
    duplicateRowsRemoved r
    = (Z.of_nat (length projected) - Z.of_nat (size (keySet projected)))%Z ∧
    (anyTextOption options = false → NoDup (tail (cleanedData r))).
Proof.
  intros Hon.
  destruct (cleanData_present originalData dataHeaders templateData templateHeaders
    options) as (r & Hr & _ & _ & _ & Htail & Hdup).
  exists r. split; [done|]. intros projected. fold projected in Htail, Hdup.
  assert (Hprojected : Forall (Forall projectedCell) projected) by apply tail_projected.
  rewrite dedupStage_keepFirst, Hon in Htail by done. rewrite Hon in Hdup.
  destruct (dedupRows_spec projected Hprojected) as (_ & _ & Hremoved).
  repeat split.
  - exact Htail.
  - intros earlier row. rewrite keepFirst_snoc. f_equal.
    apply decide_ext. rewrite elem_of_nil. tauto.
  - apply NoDup_keepFirst.
  - apply keepFirst_sublist.
  - intros row Hrow. rewrite elem_of_keepFirst, elem_of_nil. tauto.
  - by rewrite Hdup, Hremoved, size_keySet.
  - intros Hnone. rewrite Htail. unfold textStage, emptyStage. rewrite Hnone.
    destruct (removeEmptyRows options); [apply NoDup_filter|]; apply NoDup_keepFirst.
Qed.

Lemma first_occurrences_kept_before_transforms_witness :
  ∃ r,
    cleanData
      (present [[CStr "Name"; CStr "Age"; CStr "Extra"];
                [CStr "Alice"; CStr "30"; CStr "x"];
                [CStr "Alice"; CStr "30"; CStr "y"]]
               ["Name"; "Age"; "Extra"]%string)
      (present [] ["Name"; "Age"]%string)
      {| removeDuplicates := true; removeEmptyRows := false;
         removeEmptyColumns := false; trimWhitespace := false;
         normalizeText := false; removeSpecialCharacters := false;
         standardizeDates := false; convertToUppercase := false;
         convertToLowercase := false; removeLeadingZeros := false |} = inr r ∧
    NoDup (tail (cleanedData r)) ∧
    r = {| totalRowsCleaned := 1; columnsDeleted := 1; duplicateRowsRemoved := 1;
           cleanedData := [[CStr "Name"; CStr "Age"]; [CStr "Alice"; CStr "30"]] |}.
Proof.
  destruct (first_occurrences_kept_before_transforms
    ["Name"; "Age"; "Extra"]%string ["Name"; "Age"]%string
    [[CStr "Name"; CStr "Age"; CStr "Extra"];
     [CStr "Alice"; CStr "30"; CStr "x"];
     [CStr "Alice"; CStr "30"; CStr "y"]] []
    {| removeDuplicates := true; removeEmptyRows := false;
       removeEmptyColumns := false; trimWhitespace := false;
       normalizeText := false; removeSpecialCharacters := false;
       standardizeDates := false; convertToUppercase := false;
       convertToLowercase := false; removeLeadingZeros := false |} eq_refl)
    as (r & Hr & _ & _ & _ & _ & _ & _ & Hdistinct).
  exists r. split; [exact Hr|]. split; [apply Hdistinct; reflexivity|].
  vm_compute in Hr. by injection Hr as <-.
Defined.

(** C2 as stated fails when a text transform makes two distinct rows
    equal after the deduplication: bob and BOB are both kept, and both
    read BOB in the result. *)
Lemma transformed_rows_can_coincide :
  cleanData
    (present [[CStr "Name"]; [CStr "bob"]; [CStr "BOB"]] ["Name"]%string)
    (present [[CStr "Name"]] ["Name"]%string)
    {| removeDuplicates := true; removeEmptyRows := false;
       removeEmptyColumns := false; trimWhitespace := false;
       normalizeText := false; removeSpecialCharacters := false;
       standardizeDates := false; convertToUppercase := true;
       convertToLowercase := false; removeLeadingZeros := false |}
  = inr {| totalRowsCleaned := 2; columnsDeleted := 0; duplicateRowsRemoved := 0;
           cleanedData := [[CStr "Name"]; [CStr "BOB"]; [CStr "BOB"]] |}.
Proof. vm_compute. reflexivity. Qed.

(** * Further properties of [cleanData] *)

(** X1. The flags remove-empty-columns, normalize-text and
    standardize-dates are never read: setting them in any way leaves the
    outcome of [cleanData], error or result, as it is. *)
Theorem placeholder_flags_ignored
    (dataFile templateFile : UploadedFile) (options : cleaningOptions)
    (emptyColumns normalize dates : bool) :
  cleanData dataFile templateFile (withPlaceholders emptyColumns normalize dates options)
  = cleanData dataFile templateFile options.
Proof. by destruct options. Qed.

(** X2. No option touches the first row or the column count: whatever
    the options, the first row of the cleaned table is the projected first
    row of the data, as with every option off.  It is not trimmed or
    case-converted, not dropped when blank, and not counted among the
    rows compared for duplicates. *)
Theorem header_row_untouched
    (dataHeaders templateHeaders : list string)
    (originalData templateData : list (list cell)) (options : cleaningOptions) :
  ∃ r r0,
    cleanData (present originalData dataHeaders)
              (present templateData templateHeaders) options = inr r ∧
    cleanData (present originalData dataHeaders)
              (present templateData templateHeaders) noOptions = inr r0 ∧
    head (cleanedData r) = head (cleanedData r0) ∧
    head (cleanedData r)
    = projectRow (alignColumns dataHeaders templateHeaders).1 <$> head originalData ∧
    columnsDeleted r = columnsDeleted r0.
Proof.
  destruct (cleanData_present originalData dataHeaders templateData templateHeaders
    options) as (r & Hr & Hcols & _ & Hhead & _).
  exists r. eexists. split; [exact Hr|]. split; [apply cleanData_noOptions|].
  cbn [cleanedData columnsDeleted]. rewrite Hhead, Hcols, alignColumns_spec.
  repeat split. by destruct originalData.
Qed.

Lemma length_textStage options rows : length (textStage options rows) = length rows.
Proof. unfold textStage. destruct (anyTextOption options); by rewrite ?length_fmap. Qed.

Lemma length_emptyStage options rows :
  length (emptyStage options rows) ≤ length rows.
Proof.
  unfold emptyStage. destruct (removeEmptyRows options); [apply length_filter | done].
Qed.

Lemma cleanData_row_counts
    (dataHeaders templateHeaders : list string) (firstRow : list cell)
    (rows templateData : list (list cell)) (options : cleaningOptions) :
  ∃ r,
    cleanData (present (firstRow :: rows) dataHeaders)
              (present templateData templateHeaders) options = inr r ∧
    (0 ≤ totalRowsCleaned r)%Z ∧
    (totalRowsCleaned r + duplicateRowsRemoved r ≤ Z.of_nat (length rows))%Z ∧
    (removeEmptyRows options = false →
     (totalRowsCleaned r + duplicateRowsRemoved r = Z.of_nat (length rows))%Z) ∧
    (removeDuplicates options = false → duplicateRowsRemoved r = 0%Z).
Proof.
  destruct (cleanData_present (firstRow :: rows) dataHeaders templateData
    templateHeaders options) as (r & Hr & _ & Htotal & Hhead & Htail & Hdup).
  exists r. split; [exact Hr|].
  set (cols := (alignColumns dataHeaders templateHeaders).1) in *.
  unfold projectTable in Hhead, Htail, Hdup. rewrite fmap_cons in Hhead, Htail, Hdup.
  cbn [head tail] in Hhead, Htail, Hdup.
  assert (Hlen : length (cleanedData r) = S (length (tail (cleanedData r)))).
  { destruct (cleanedData r); [discriminate | done]. }
  assert (Hproj : Forall (Forall projectedCell) (projectRow cols <$> rows)).
  { apply Forall_fmap, Forall_true. intros row. apply projectRow_projected. }
  rewrite Htotal, Hlen, Htail, length_textStage, Hdup.
  pose proof (length_emptyStage options (dedupStage options (projectRow cols <$> rows)))
    as Hle.
  assert (Hempty : removeEmptyRows options = false →
    length (emptyStage options (dedupStage options (projectRow cols <$> rows)))
    = length (dedupStage options (projectRow cols <$> rows))).
  { intros Hoff. unfold emptyStage. by rewrite Hoff. }
  rewrite dedupStage_keepFirst in Hle, Hempty |- * by done.
  destruct (removeDuplicates options).
  - destruct (dedupRows_spec _ Hproj) as (_ & _ & ->).
    pose proof (sublist_length _ _ (keepFirst_sublist (projectRow cols <$> rows) [])).
    rewrite length_fmap in *.
    repeat split; [lia | lia | intros Hoff; specialize (Hempty Hoff); lia | done].
  - rewrite length_fmap in *.
    repeat split; [lia | lia | intros Hoff; specialize (Hempty Hoff); lia].
Qed.

(** ** Errors and fallbacks *)

Lemma cellOrEmpty_orEmpty row colIndex :
  cellOrEmpty row colIndex = JsValue.orEmpty (default CUndefined (row !! colIndex)).
Proof. unfold cellOrEmpty. by destruct (row !! colIndex). Qed.

Lemma projectTable_cellOrEmpty cols tbl :
  projectTable cols tbl = (λ row, cellOrEmpty row <$> cols) <$> tbl.
Proof.
  unfold projectTable, projectRow. apply list_fmap_ext. intros _ row _.
  apply list_fmap_ext. intros _ i _. by rewrite cellOrEmpty_orEmpty.
Qed.

Lemma same_head_tail {A} (l1 l2 : list A) :
  head l1 = head l2 → tail l1 = tail l2 → l1 = l2.
Proof. destruct l1, l2; simpl; congruence. Qed.

(** C5. [cleanData] throws, with the message of the source, exactly when
    one of the two files lacks its data list or its header list.  On
    every other input it returns a result with its four fields.  The
    first row of the cleaned table is the first data row read at the
    kept columns, a missing or falsy cell replaced by the empty string;
    every further row is such a row of the data, put through the text
    transforms when a text option is on; with duplicate removal,
    empty-row removal and the text options off the cleaned table is the
    whole data table read that way.  Every row has the width of the kept
    header and holds no null or undefined cell.  [columnsDeleted] and
    [totalRowsCleaned] are the two differences the source computes, the
    duplicate count is 0 when duplicate removal is off and never
    negative, and a data table of a header row alone gives a row count
    and a duplicate count of 0.  The row count is not negative once the
    data list has a row; for a data list that is present but empty it is
    -1, where C5 has zero counts. *)
Theorem error_iff_list_missing
    (dataFile templateFile : UploadedFile) (options : cleaningOptions) :
  (cleanData dataFile templateFile options = inl (Error "File data is not available")
   ↔ lacksList dataFile ∨ lacksList templateFile) ∧
  (¬ (lacksList dataFile ∨ lacksList templateFile) →
   ∃ r originalData dataHeaders templateHeaders,
     cleanData dataFile templateFile options = inr r ∧
     data dataFile = Some originalData ∧
     headers dataFile = Some dataHeaders ∧
     headers templateFile = Some templateHeaders ∧
     let substituted :=
       (λ row, cellOrEmpty row <$> omap (λ h, indexOf h dataHeaders) templateHeaders)
       <$> originalData in
     head (cleanedData r) = head substituted ∧
     (∀ row, row ∈ tail (cleanedData r) →
        ∃ row0, row0 ∈ tail substituted ∧
          row = if anyTextOption options then transformRow options row0 else row0) ∧
     (removeDuplicates options = false → removeEmptyRows options = false →
      anyTextOption options = false → cleanedData r = substituted) ∧
     Forall (wellShaped (length (keptNames dataHeaders templateHeaders)))
       (cleanedData r) ∧
     columnsDeleted r
     = (Z.of_nat (length dataHeaders)
        - Z.of_nat (length (keptNames dataHeaders templateHeaders)))%Z ∧
     totalRowsCleaned r = (Z.of_nat (length (cleanedData r)) - 1)%Z ∧
     (0 ≤ duplicateRowsRemoved r)%Z ∧
     (removeDuplicates options = false → duplicateRowsRemoved r = 0%Z) ∧
     (length originalData = 1 →
      totalRowsCleaned r = 0%Z ∧ duplicateRowsRemoved r = 0%Z) ∧
     (1 ≤ length originalData →
      (0 ≤ totalRowsCleaned r)%Z ∧
      (totalRowsCleaned r + duplicateRowsRemoved r
       ≤ Z.of_nat (length originalData) - 1)%Z) ∧
     (originalData = [] →
      totalRowsCleaned r = (-1)%Z ∧ cleanedData r = [] ∧
      duplicateRowsRemoved r = 0%Z)) ∧
  cleanData (present [] []) (present [] []) options
  = inr {| totalRowsCleaned := -1; columnsDeleted := 0; duplicateRowsRemoved := 0;
           cleanedData := [] |}.
Proof.
  split; [|split; [|reflexivity]].
  { destruct dataFile as [[od|] [dh|]], templateFile as [[td|] [th|]];
      unfold lacksList; cbn [data headers];
      try (split; [intros _; tauto | intros _; reflexivity]).
    destruct (cleanData_present od dh td th options) as (r & Hr & _).
    unfold present in Hr. rewrite Hr.
    split; [discriminate | intros [[?|?]|[?|?]]; done]. }
  destruct dataFile as [[od|] [dh|]], templateFile as [[td|] [th|]];
    unfold lacksList; cbn [data headers]; try (intros []; tauto).
  intros _.
  destruct (cleanData_present od dh td th options)
    as (r & Hr & Hcols & Htotal & Hhead & Htail & Hdup).
  destruct (cleanData_wellShaped _ _ _ _ _ _ Hr) as [Hshape Hdup0].
  exists r, od, dh, th. unfold present in Hr.
  split; [exact Hr|]. split; [done|]. split; [done|]. split; [done|].
  cbv zeta.
  set (substituted :=
         (λ row : list cell, cellOrEmpty row <$> omap (λ h, indexOf h dh) th) <$> od).
  rewrite alignColumns_spec in Hhead, Htail, Hdup. cbn [fst] in Hhead, Htail, Hdup.
  rewrite projectTable_cellOrEmpty in Hhead, Htail, Hdup.
  fold substituted in Hhead, Htail, Hdup.
  assert (Hproj : Forall (Forall projectedCell) (tail substituted)).
  { unfold substituted. rewrite <- projectTable_cellOrEmpty. apply tail_projected. }
  split; [exact Hhead|].
  split.
  { intros row Hrow. rewrite Htail in Hrow. unfold textStage in Hrow.
    destruct (anyTextOption options).
    - apply list_elem_of_fmap in Hrow as (row0 & -> & Hrow0).
      exists row0. split; [|done].
      apply elem_of_emptyStage in Hrow0. by apply elem_of_dedupStage in Hrow0.
    - exists row. split; [|done].
      apply elem_of_emptyStage in Hrow. by apply elem_of_dedupStage in Hrow. }
  split.
  { intros Hd He Ht. apply same_head_tail; [exact Hhead|].
    rewrite Htail. unfold textStage, emptyStage, dedupStage. by rewrite Hd, He, Ht. }
  split; [exact Hshape|]. split; [exact Hcols|]. split; [exact Htotal|].
  split; [exact Hdup0|].
  split.
  { intros Hd. rewrite Hdup. by rewrite Hd. }
  destruct od as [|firstRow rows].
  - unfold cleanData in Hr. cbn [data headers] in Hr.
    destruct (alignColumns dh th) as [cols kept]. cbn in Hr.
    injection Hr as <-. cbn. repeat split; try done; lia.
  - destruct (cleanData_row_counts dh th firstRow rows td options)
      as (r' & Hr' & Hnonneg & Hle & _ & _).
    unfold present in Hr'. rewrite Hr in Hr'. injection Hr' as <-.
    cbn [length]. split; [|split; [|done]].
    + intros Hone. assert (length rows = 0) as Hrows by lia.
      rewrite Hrows in Hle. lia.
    + intros _. split; [exact Hnonneg | lia].
Qed.

Lemma error_iff_list_missing_witness :
  ∃ r,
    cleanData
      (present [[CStr "Name"; CStr "Phone"]; [CStr "Ann"];
                [CNum 0; CNull; CStr "x"]] ["Name"; "Phone"]%string)
      (present [] ["Phone"; "Id"; "Name"]%string) noOptions = inr r ∧
    cleanedData r
    = [[CStr "Phone"; CStr "Name"]; [CStr EmptyString; CStr "Ann"];
       [CStr EmptyString; CStr EmptyString]] ∧
    totalRowsCleaned r = 2%Z ∧ columnsDeleted r = 0%Z ∧ duplicateRowsRemoved r = 0%Z.
Proof.
  destruct (proj1 (proj2 (error_iff_list_missing
    (present [[CStr "Name"; CStr "Phone"]; [CStr "Ann"];
              [CNum 0; CNull; CStr "x"]] ["Name"; "Phone"]%string)
    (present [] ["Phone"; "Id"; "Name"]%string) noOptions)))
    as (r & od & dh & th & Hr & Hod & Hdh & Hth & Hrest).
  { intros [[H | H] | [H | H]]; discriminate H. }
  injection Hod as <-. injection Hdh as <-. injection Hth as <-.
  destruct Hrest as (_ & _ & Hall & _ & Hcols & Htotal & _ & Hdup & _).
  specialize (Hall eq_refl eq_refl eq_refl). specialize (Hdup eq_refl).
  exists r. split; [exact Hr|]. split; [exact Hall|].
  rewrite Htotal, Hcols, Hall. split; [reflexivity|]. split; [reflexivity | exact Hdup].
Defined.

(** X3. Every data row is accounted for.  For a data table with a first
    row, the rows kept and the duplicates removed together never exceed
    the data rows received, and they are exactly as many when
    remove-empty-rows is off; the row count is not negative, and the
    duplicate count is 0 when remove-duplicates is off. *)
Theorem rows_accounted_for
    (dataHeaders templateHeaders : list string) (firstRow : list cell)
    (rows templateData : list (list cell)) (options : cleaningOptions) :
  ∃ r,
    cleanData (present (firstRow :: rows) dataHeaders)
              (present templateData templateHeaders) options = inr r ∧
    (0 ≤ totalRowsCleaned r)%Z ∧
    (totalRowsCleaned r + duplicateRowsRemoved r ≤ Z.of_nat (length rows))%Z ∧
    (removeEmptyRows options = false →
     (totalRowsCleaned r + duplicateRowsRemoved r = Z.of_nat (length rows))%Z) ∧
    (removeDuplicates options = false → duplicateRowsRemoved r = 0%Z).
Proof.
  destruct (cleanData_row_counts dataHeaders templateHeaders firstRow rows
    templateData options) as (r & Hr & Hpos & Hle & Heq & Hdup).
  exists r. split; [exact Hr|]. split; [exact Hpos|]. split; [exact Hle|].
  split; [exact Heq | exact Hdup].
Qed.

(** X4. Rows are only dropped, never reordered or invented: the data rows
    of the result are the per-cell transform of a subsequence of the
    projected data rows, and that subsequence itself when no text option
    is on. *)
Theorem rows_only_dropped
    (dataHeaders templateHeaders : list string)
    (originalData templateData : list (list cell)) (options : cleaningOptions) :
  ∃ r kept,
    cleanData (present originalData dataHeaders)
              (present templateData templateHeaders) options = inr r ∧
    sublist kept
      (tail (projectTable (alignColumns dataHeaders templateHeaders).1 originalData)) ∧
    tail (cleanedData r)
    = (if anyTextOption options then transformRow options <$> kept else kept).
Proof.
  destruct (cleanData_present originalData dataHeaders templateData templateHeaders
    options) as (r & Hr & _ & _ & _ & Htail & _).
  set (projected := tail (projectTable (alignColumns dataHeaders templateHeaders).1
                            originalData)) in *.
  exists r, (emptyStage options (dedupStage options projected)).
  split; [exact Hr|]. split; [|exact Htail].
  rewrite dedupStage_keepFirst by apply tail_projected.
  assert (sublist (if removeDuplicates options then keepFirst [] projected else projected)
            projected) as Hsub.
  { destruct (removeDuplicates options); [apply keepFirst_sublist | done]. }
  unfold emptyStage. destruct (removeEmptyRows options); [|done].
  etrans; [apply sublist_filter | exact Hsub].
Qed.

(** ** What the text options guarantee *)

Lemma allChars_filterChars_same p s :
  JsString.allChars p (JsString.filterChars p s) = true.
Proof.
  induction s as [|c s IH]; simpl; [done|].
  destruct (p c) eqn:E; simpl; [by rewrite E | done].
Qed.

Lemma allChars_filterChars p q s :
  JsString.allChars p s = true → JsString.allChars p (JsString.filterChars q s) = true.
Proof.
  induction s as [|c s IH]; simpl; [done|].
  rewrite andb_true_iff. intros [Hc Hs].
  destruct (q c); simpl; [rewrite Hc|]; auto.
Qed.

Lemma allChars_stripZeros p s :
  JsString.allChars p s = true → JsString.allChars p (JsString.stripZeros s) = true.
Proof.
  induction s as [|c s IH]; simpl; [done|].
  rewrite andb_true_iff. intros [Hc Hs].
  destruct (JsString.isZero c); simpl; [auto | by rewrite Hc, Hs].
Qed.

Lemma allChars_mapChars_all p f s :
  (∀ c, p (f c) = true) → JsString.allChars p (JsString.mapChars f s) = true.
Proof. intros Hf. induction s as [|c s IH]; simpl; [done | by rewrite Hf, IH]. Qed.

Lemma allChars_zerosStep p options s :
  JsString.allChars p s = true → JsString.allChars p (zerosStep options s) = true.
Proof.
  intros H. unfold zerosStep.
  destruct (removeLeadingZeros options && JsString.testLeadingZeros s);
    [by apply allChars_stripZeros | done].
Qed.

Lemma allChars_specialStep p options s :
  JsString.allChars p s = true → JsString.allChars p (specialStep options s) = true.
Proof.
  intros H. unfold specialStep.
  destruct (removeSpecialCharacters options); [by apply allChars_filterChars | done].
Qed.

Lemma toUpperChar_not_lower c : negb (JsString.isLower (JsString.toUpperChar c)) = true.
Proof. each_ascii c; reflexivity. Qed.

Lemma toLowerChar_not_upper c : negb (JsString.isUpper (JsString.toLowerChar c)) = true.
Proof. each_ascii c; reflexivity. Qed.

(** With a text option on, every data cell of the result is the
    transform of a projected cell. *)
Lemma text_cells_transformed od dh td th options r row c :
  anyTextOption options = true →
  cleanData (present od dh) (present td th) options = inr r →
  row ∈ tail (cleanedData r) → c ∈ row →
  ∃ c0, c = CStr (transformText options (JsValue.textOf c0)).
Proof.
  intros Hany Hr Hrow Hc.
  destruct (cleanData_present od dh td th options)
    as (r' & Hr' & _ & _ & _ & Htail & _).
  rewrite Hr in Hr'. injection Hr' as <-.
  rewrite Htail in Hrow. unfold textStage in Hrow. rewrite Hany in Hrow.
  apply list_elem_of_fmap in Hrow as (row0 & -> & _).
  unfold transformRow in Hc. apply list_elem_of_fmap in Hc as (c0 & -> & _).
  by exists c0.
Qed.

(** X5. With a text option on, every data cell of the result is a string
    (numbers and booleans are printed).  With remove-special-characters on
    it holds letters, digits and white space only; with uppercase on it
    holds no lowercase letter; with lowercase on and uppercase off it
    holds no uppercase letter. *)
Theorem text_options_guarantees
    (dataHeaders templateHeaders : list string)
    (originalData templateData : list (list cell)) (options : cleaningOptions) :
  anyTextOption options = true →
  ∃ r,
    cleanData (present originalData dataHeaders)
              (present templateData templateHeaders) options = inr r ∧
    ∀ row c, row ∈ tail (cleanedData r) → c ∈ row →
      ∃ s, c = CStr s ∧
        (removeSpecialCharacters options = true →
         JsString.allChars JsString.isWordOrSpace s = true) ∧
        (convertToUppercase options = true →
         JsString.allChars (λ x, negb (JsString.isLower x)) s = true) ∧
        (convertToUppercase options = false → convertToLowercase options = true →
         JsString.allChars (λ x, negb (JsString.isUpper x)) s = true).
Proof.
  intros Hany.
  destruct (cleanData_present originalData dataHeaders templateData templateHeaders
    options) as (r & Hr & _).
  exists r. split; [exact Hr|]. intros row c Hrow Hc.
  destruct (text_cells_transformed _ _ _ _ _ _ _ _ Hany Hr Hrow Hc) as (c0 & ->).
  eexists. split; [reflexivity|]. rewrite transformText_steps. repeat split.
  - intros Hon. apply allChars_zerosStep. unfold specialStep. rewrite Hon.
    apply allChars_filterChars_same.
  - intros Hon. apply allChars_zerosStep, allChars_specialStep.
    unfold caseStep. rewrite Hon.
    apply allChars_mapChars_all, toUpperChar_not_lower.
  - intros Hoff Hon. apply allChars_zerosStep, allChars_specialStep.
    unfold caseStep. rewrite Hoff, Hon.
    apply allChars_mapChars_all, toLowerChar_not_upper.
Qed.

Lemma text_options_guarantees_witness :
  ∃ r,
    cleanData
      (present [[CStr "Name"; CStr "Qty"];
                [CStr (String "o" (String "'" (String "160" "Neil! "))); CNum 12]]
               ["Name"; "Qty"]%string)
      (present [] ["Qty"; "Name"]%string)
      (textOptions false true false true false) = inr r ∧
    cleanedData r
    = [[CStr "Qty"; CStr "Name"];
       [CStr "12"; CStr (String "O" (String "160" "NEIL "))]].
Proof.
  destruct (text_options_guarantees ["Name"; "Qty"]%string ["Qty"; "Name"]%string
    [[CStr "Name"; CStr "Qty"];
     [CStr (String "o" (String "'" (String "160" "Neil! "))); CNum 12]] []
    (textOptions false true false true false) eq_refl) as (r & Hr & _).
  exists r. split; [exact Hr|]. vm_compute in Hr. by injection Hr as <-.
Defined.

Lemma endsWithSpace_cons c s :
  endsWithSpace (String c s)
  = if JsString.isEmpty s then JsString.isWhiteSpace c else endsWithSpace s.
Proof. by destruct s. Qed.

Lemma startsWith_trimStart s :
  startsWith JsString.isWhiteSpace (JsString.trimStart s) = false.
Proof.
  induction s as [|c s IH]; simpl; [done|].
  destruct (JsString.isWhiteSpace c) eqn:E; simpl; done.
Qed.

Lemma endsWithSpace_trimEnd s : endsWithSpace (JsString.trimEnd s) = false.
Proof.
  induction s as [|c s IH]; [done|]. cbn [JsString.trimEnd].
  destruct (JsString.trimEnd s) as [|x t].
  - destruct (JsString.isWhiteSpace c) eqn:E; [done|]. by rewrite endsWithSpace_cons.
  - by rewrite endsWithSpace_cons.
Qed.

Lemma endsWithSpace_trimStart s :
  endsWithSpace s = false → endsWithSpace (JsString.trimStart s) = false.
Proof.
  induction s as [|c s IH]; [done|]. cbn [JsString.trimStart].
  rewrite endsWithSpace_cons. intros H.
  destruct (JsString.isWhiteSpace c) eqn:E.
  - destruct s; [done|]. by apply IH.
  - rewrite endsWithSpace_cons. by destruct s.
Qed.

Lemma startsWith_mapChars f s :
  (∀ c, JsString.isWhiteSpace (f c) = JsString.isWhiteSpace c) →
  startsWith JsString.isWhiteSpace (JsString.mapChars f s)
  = startsWith JsString.isWhiteSpace s.
Proof. intros Hf. destruct s; simpl; auto. Qed.

Lemma endsWithSpace_mapChars f s :
  (∀ c, JsString.isWhiteSpace (f c) = JsString.isWhiteSpace c) →
  endsWithSpace (JsString.mapChars f s) = endsWithSpace s.
Proof.
  intros Hf. induction s as [|c s IH]; [done|]. cbn [JsString.mapChars].
  rewrite !endsWithSpace_cons, IH, Hf. by destruct s.
Qed.

(** X6. With trim-whitespace on and neither remove-special-characters
    nor remove-leading-zeros on, no data cell of the result starts or ends
    with white space.  (Trimming is the first step, so the two later
    deletions can uncover white space again.) *)
Theorem trimmed_cells_have_no_edge_space
    (dataHeaders templateHeaders : list string)
    (originalData templateData : list (list cell)) (options : cleaningOptions) :
  trimWhitespace options = true →
  removeSpecialCharacters options = false →
  removeLeadingZeros options = false →
  ∃ r,
    cleanData (present originalData dataHeaders)
              (present templateData templateHeaders) options = inr r ∧
    ∀ row c, row ∈ tail (cleanedData r) → c ∈ row →
      ∃ s, c = CStr s ∧
        startsWith JsString.isWhiteSpace s = false ∧ endsWithSpace s = false.
Proof.
  intros Htrim Hspecial Hzeros.
  destruct (cleanData_present originalData dataHeaders templateData templateHeaders
    options) as (r & Hr & _).
  exists r. split; [exact Hr|]. intros row c Hrow Hc.
  assert (Hany : anyTextOption options = true)
    by (unfold anyTextOption; by rewrite Htrim).
  destruct (text_cells_transformed _ _ _ _ _ _ _ _ Hany Hr Hrow Hc) as (c0 & ->).
  eexists. split; [reflexivity|]. rewrite transformText_steps.
  unfold zerosStep, specialStep, caseStep, trimStep.
  rewrite Htrim, Hspecial, Hzeros. cbn [andb].
  assert (startsWith JsString.isWhiteSpace (JsString.trim (JsValue.textOf c0)) = false
          ∧ endsWithSpace (JsString.trim (JsValue.textOf c0)) = false) as [Hs He].
  { unfold JsString.trim. split; [apply startsWith_trimStart|].
    apply endsWithSpace_trimStart, endsWithSpace_trimEnd. }
  destruct (convertToUppercase options); [|destruct (convertToLowercase options)].
  - unfold JsString.toUpperCase.
    by rewrite startsWith_mapChars, endsWithSpace_mapChars
      by apply isWhiteSpace_toUpperChar.
  - unfold JsString.toLowerCase.
    by rewrite startsWith_mapChars, endsWithSpace_mapChars
      by apply isWhiteSpace_toLowerChar.
  - done.
Qed.

Lemma trimmed_cells_have_no_edge_space_witness :
  ∃ r,
    cleanData
      (present [[CStr "Name"]; [CStr "  Ann Lee  "]] ["Name"]%string)
      (present [] ["Name"]%string)
      (textOptions true false true false false) = inr r ∧
    cleanedData r = [[CStr "Name"]; [CStr "ann lee"]].
Proof.
  destruct (trimmed_cells_have_no_edge_space ["Name"]%string ["Name"]%string
    [[CStr "Name"]; [CStr "  Ann Lee  "]] []
    (textOptions true false true false false) eq_refl eq_refl eq_refl) as (r & Hr & _).
  exists r. split; [exact Hr|]. vm_compute in Hr. by injection Hr as <-.
Defined.

(** ** Cleaning a cleaned table *)

Lemma keepFirst_NoDup rows : ∀ before,
  NoDup rows → (∀ row, row ∈ rows → row ∉ before) → keepFirst before rows = rows.
Proof.
  induction rows as [|x rows IH]; intros before Hnd Hfresh; [done|]. simpl.
  apply NoDup_cons in Hnd as [Hx Hnd].
  rewrite decide_False by (apply Hfresh; by left).
  f_equal. apply IH; [done|]. intros row Hrow. rewrite not_elem_of_cons. split.
  - by intros ->.
  - apply Hfresh. by right.
Qed.

Lemma filter_all {A} (P : A → Prop) `{∀ x, Decision (P x)} (l : list A) :
  Forall P l → filter P l = l.
Proof.
  induction 1 as [|x l Hx _ IH]; [done|].
  by rewrite filter_cons, decide_True, IH.
Qed.

Lemma head_tail_eq {A} (l : list A) x : head l = Some x → l = x :: tail l.
Proof. destruct l; [done|]. by intros [= ->]. Qed.

(** The rows that leave the two row stages are pairwise distinct when
    remove-duplicates is on, all pass the empty-row test when
    remove-empty-rows is on, and are rows of the input. *)
Lemma row_stages_settled options rows :
  Forall (Forall projectedCell) rows →
  let kept := emptyStage options (dedupStage options rows) in
  (∀ row, row ∈ kept → row ∈ rows) ∧
  emptyStage options (dedupStage options kept) = kept ∧
  (removeDuplicates options = true → keepFirst [] kept = kept).
Proof.
  intros Hrows kept.
  assert (Hsub : ∀ row, row ∈ kept → row ∈ rows).
  { intros row Hrow. apply elem_of_emptyStage in Hrow.
    by apply elem_of_dedupStage in Hrow. }
  assert (Hkept : Forall (Forall projectedCell) kept).
  { rewrite Forall_forall in Hrows. apply Forall_forall. auto. }
  assert (Hdistinct : removeDuplicates options = true → keepFirst [] kept = kept).
  { intros Hon. apply keepFirst_NoDup; [|intros ? _; apply not_elem_of_nil].
    unfold kept. rewrite dedupStage_keepFirst, Hon by done.
    unfold emptyStage.
    destruct (removeEmptyRows options); [apply NoDup_filter|]; apply NoDup_keepFirst. }
  repeat split; [done | | done].
  rewrite (dedupStage_keepFirst options kept) by done.
  destruct (removeDuplicates options) eqn:Hdup; [rewrite Hdistinct by done|];
    unfold emptyStage at 1; destruct (removeEmptyRows options) eqn:Hemp; try done;
    apply filter_all, Forall_forall; intros row Hrow; unfold kept, emptyStage in Hrow;
    rewrite Hemp in Hrow; by apply list_elem_of_filter in Hrow as [? _].
Qed.

(** X7. With no text option on, cleaning is idempotent: for a data table
    whose first row is its header list, cleaning the cleaned table (its
    first row taken as header list) against the same template with the
    same options returns the same table, removes no duplicate and deletes
    no column. *)
Theorem cleaning_twice_changes_nothing
    (dataHeaders templateHeaders : list string)
    (rows templateData : list (list cell)) (options : cleaningOptions) :
  anyTextOption options = false →
  ∃ r1 r2,
    cleanData (present ((CStr <$> dataHeaders) :: rows) dataHeaders)
              (present templateData templateHeaders) options = inr r1 ∧
    cleanData (present (cleanedData r1) (alignColumns dataHeaders templateHeaders).2)
              (present templateData templateHeaders) options = inr r2 ∧
    cleanedData r2 = cleanedData r1 ∧
    totalRowsCleaned r2 = totalRowsCleaned r1 ∧
    duplicateRowsRemoved r2 = 0%Z ∧
    columnsDeleted r2 = 0%Z.
Proof.
  intros Hnone.
  set (kept := (alignColumns dataHeaders templateHeaders).2).
  assert (Hkept : kept = keptNames dataHeaders templateHeaders)
    by (unfold kept; by rewrite alignColumns_spec).
  destruct (cleanData_present ((CStr <$> dataHeaders) :: rows) dataHeaders
    templateData templateHeaders options)
    as (r1 & Hr1 & _ & Htotal1 & Hhead1 & Htail1 & _).
  destruct (cleanData_present (cleanedData r1) kept templateData templateHeaders
    options) as (r2 & Hr2 & Hcols2 & Htotal2 & Hhead2 & Htail2 & Hdup2).
  exists r1, r2. split; [exact Hr1|]. split; [exact Hr2|].
  set (cols := (alignColumns dataHeaders templateHeaders).1) in *.
  set (cols' := (alignColumns kept templateHeaders).1) in *.
  unfold projectTable in Hhead1, Htail1. rewrite fmap_cons in Hhead1, Htail1.
  cbn [head tail] in Hhead1, Htail1.
  unfold textStage in Htail1, Htail2. rewrite Hnone in Htail1, Htail2.
  assert (Hindices : Forall2 (λ h i, indexOf h dataHeaders = Some i) kept cols).
  { unfold cols. rewrite Hkept, alignColumns_spec. apply kept_indices. }
  assert (Hindices' : Forall2 (λ h k, indexOf h kept = Some k) kept cols').
  { unfold cols'. rewrite alignColumns_spec. cbn [fst].
    pose proof (kept_indices kept templateHeaders) as H.
    by rewrite Hkept, keptNames_again, <- Hkept in H. }
  assert (Hproj : Forall (Forall projectedCell) (projectRow cols <$> rows)).
  { apply Forall_fmap, Forall_true. intros row. apply projectRow_projected. }
  destruct (row_stages_settled options _ Hproj) as (Hsub & Hsettled & Hdistinct).
  rewrite <- Htail1 in Hsub, Hsettled, Hdistinct.
  assert (Hsame : projectTable cols' (cleanedData r1) = cleanedData r1).
  { rewrite (head_tail_eq _ _ Hhead1). unfold projectTable. rewrite fmap_cons.
    f_equal; [by eapply projectRow_twice|].
    rewrite <- (list_fmap_id (tail (cleanedData r1))) at 2.
    apply list_fmap_ext. intros i row Hrow.
    apply list_elem_of_lookup_2, Hsub, list_elem_of_fmap in Hrow as (row0 & -> & _).
    by eapply projectRow_twice. }
  rewrite Hsame in Hhead2, Htail2, Hdup2. rewrite Hsettled in Htail2.
  assert (Hdata : cleanedData r2 = cleanedData r1).
  { destruct (cleanedData r1) as [|h1 t1]; [discriminate|].
    destruct (cleanedData r2) as [|h2 t2]; [discriminate|].
    cbn [head tail] in *. congruence. }
  repeat split.
  - exact Hdata.
  - by rewrite Htotal1, Htotal2, Hdata.
  - rewrite Hdup2. destruct (removeDuplicates options) eqn:Hdup; [|done].
    assert (Forall (Forall projectedCell) (tail (cleanedData r1))) as Hp.
    { rewrite Forall_forall in Hproj. apply Forall_forall. auto. }
    destruct (dedupRows_spec _ Hp) as (_ & _ & ->). rewrite Hdistinct by done. lia.
  - rewrite Hcols2, Hkept, keptNames_again. lia.
Qed.

Lemma cleaning_twice_changes_nothing_witness :
  ∃ r1 r2,
    cleanData
      (present ((CStr <$> ["Name"; "Age"; "Extra"]%string)
                :: [[CStr "Alice"; CNum 30; CStr "x"]; [CStr ""; CNum 0];
                    [CStr "Alice"; CNum 30; CStr "y"]])
               ["Name"; "Age"; "Extra"]%string)
      (present [] ["Age"; "Name"]%string)
      {| removeDuplicates := true; removeEmptyRows := true;
         removeEmptyColumns := false; trimWhitespace := false;
         normalizeText := false; removeSpecialCharacters := false;
         standardizeDates := false; convertToUppercase := false;
         convertToLowercase := false; removeLeadingZeros := false |} = inr r1 ∧
    cleanData
      (present (cleanedData r1)
         (alignColumns ["Name"; "Age"; "Extra"]%string ["Age"; "Name"]%string).2)
      (present [] ["Age"; "Name"]%string)
      {| removeDuplicates := true; removeEmptyRows := true;
         removeEmptyColumns := false; trimWhitespace := false;
         normalizeText := false; removeSpecialCharacters := false;
         standardizeDates := false; convertToUppercase := false;
         convertToLowercase := false; removeLeadingZeros := false |} = inr r2 ∧
    cleanedData r2 = cleanedData r1.
Proof.
  destruct (cleaning_twice_changes_nothing ["Name"; "Age"; "Extra"]%string
    ["Age"; "Name"]%string
    [[CStr "Alice"; CNum 30; CStr "x"]; [CStr ""; CNum 0];
     [CStr "Alice"; CNum 30; CStr "y"]] []
    {| removeDuplicates := true; removeEmptyRows := true;
       removeEmptyColumns := false; trimWhitespace := false;
       normalizeText := false; removeSpecialCharacters := false;
       standardizeDates := false; convertToUppercase := false;
       convertToLowercase := false; removeLeadingZeros := false |} eq_refl)
    as (r1 & r2 & H1 & H2 & H3 & _).
  exists r1, r2. split; [exact H1|]. split; [exact H2 | exact H3].
Defined.

(** * The processing preview *)

Lemma includes_true l x : includes l x = true ↔ x ∈ l.
Proof.
  unfold includes. induction l as [|y l IH]; simpl.
  - rewrite elem_of_nil. split; [done | tauto].
  - rewrite orb_true_iff, IH, elem_of_cons, String.eqb_eq. tauto.
Qed.

Lemma keptColumns_keptNames templateHeaders dataHeaders :
  keptColumns templateHeaders dataHeaders = keptNames dataHeaders templateHeaders.
Proof.
  unfold keptColumns, keptNames. apply list_filter_iff. intros h.
  apply includes_true.
Qed.

Lemma removedColumns_complement templateHeaders dataHeaders :
  removedColumns templateHeaders dataHeaders
  = filter (λ h, ¬ h ∈ templateHeaders) dataHeaders.
Proof.
  unfold removedColumns. apply list_filter_iff. intros h.
  rewrite <- includes_true. by destruct (includes templateHeaders h).
Qed.

Lemma shared_names_same_count (l k : list string) :
  NoDup l → NoDup k →
  length (filter (λ h, h ∈ k) l) = length (filter (λ h, h ∈ l) k).
Proof.
  intros Hl Hk. apply Permutation_length, NoDup_Permutation.
  - by apply NoDup_filter.
  - by apply NoDup_filter.
  - intros h. rewrite !list_elem_of_filter. tauto.
Qed.

(** X8. The preview agrees with the cleaning.  The columns it lists as
    kept are the header row of the cleaned table, in the same order; the
    columns it lists as removed are the data headers absent from the
    template; and when neither header list repeats a name, their number
    is the [columnsDeleted] of the result. *)
Theorem preview_matches_result
    (dataHeaders templateHeaders : list string)
    (rows templateData : list (list cell)) (options : cleaningOptions) :
  ∃ r,
    cleanData (present ((CStr <$> dataHeaders) :: rows) dataHeaders)
              (present templateData templateHeaders) options = inr r ∧
    head (cleanedData r) = Some (CStr <$> keptColumns templateHeaders dataHeaders) ∧
    (∀ col, col ∈ removedColumns templateHeaders dataHeaders
            ↔ col ∈ dataHeaders ∧ col ∉ templateHeaders) ∧
    (NoDup dataHeaders → NoDup templateHeaders →
     columnsDeleted r
     = Z.of_nat (length (removedColumns templateHeaders dataHeaders))).
Proof.
  destruct (cleanData_present ((CStr <$> dataHeaders) :: rows) dataHeaders
    templateData templateHeaders options) as (r & Hr & Hcols & _ & Hhead & _).
  exists r. split; [exact Hr|]. split; [|split].
  - rewrite Hhead, alignColumns_spec, keptColumns_keptNames. cbn [fst].
    unfold projectTable. rewrite fmap_cons. cbn [head]. f_equal.
    apply projectRow_header, kept_indices.
  - intros col. rewrite removedColumns_complement, list_elem_of_filter. tauto.
  - intros Hd Ht. rewrite Hcols, removedColumns_complement.
    pose proof (filter_app_complement (λ h, h ∈ templateHeaders) dataHeaders) as Hsplit.
    apply Permutation_length in Hsplit. rewrite length_app in Hsplit.
    unfold keptNames. rewrite <- (shared_names_same_count dataHeaders templateHeaders)
      by done. lia.
Qed.

Lemma preview_matches_result_witness :
  ∃ r,
    cleanData
      (present ((CStr <$> ["Name"; "Age"; "Extra"]%string) :: [])
               ["Name"; "Age"; "Extra"]%string)
      (present [] ["Age"; "Phone"; "Name"]%string) noOptions = inr r ∧
    columnsDeleted r
    = Z.of_nat (length (removedColumns ["Age"; "Phone"; "Name"]%string
                          ["Name"; "Age"; "Extra"]%string)).
Proof.
  destruct (preview_matches_result ["Name"; "Age"; "Extra"]%string
    ["Age"; "Phone"; "Name"]%string [] [] noOptions) as (r & Hr & _ & _ & Hcount).
  exists r. split; [exact Hr|].
  apply Hcount; apply (bool_decide_unpack _); vm_compute; exact I.
Defined.

(** * The upload list *)

(** ** Sorting with a comparator *)

Section Sorting.

Context {A : Type} (cmp : A → A → Z).

Lemma insertBy_Permutation x l : insertBy cmp x l ≡ₚ x :: l.
Proof.
  induction l as [|y l IH]; simpl; [done|].
  destruct (cmp x y <=? 0)%Z; [done|]. rewrite IH. apply Permutation_swap.
Qed.

Lemma sortBy_Permutation l : sortBy cmp l ≡ₚ l.
Proof.
  induction l as [|x l IH]; simpl; [done|].
  rewrite insertBy_Permutation. by constructor.
Qed.

Lemma insertBy_fmap (h : A → A) x l :
  (∀ a b, cmp (h a) (h b) = cmp a b) →
  insertBy cmp (h x) (h <$> l) = h <$> insertBy cmp x l.
Proof.
  intros Hh. induction l as [|y l IH]; [done|].
  rewrite fmap_cons. cbn [insertBy]. rewrite Hh.
  destruct (cmp x y <=? 0)%Z; rewrite !fmap_cons; [done | by rewrite IH].
Qed.

Lemma sortBy_fmap (h : A → A) l :
  (∀ a b, cmp (h a) (h b) = cmp a b) →
  sortBy cmp (h <$> l) = h <$> sortBy cmp l.
Proof.
  intros Hh. unfold sortBy. induction l as [|x l IH]; [done|].
  rewrite fmap_cons. cbn [foldr]. rewrite IH. by apply insertBy_fmap.
Qed.

Variable P : A → Prop.
Hypothesis cmp_flip : ∀ a b, P a → P b → (0 < cmp a b)%Z → (cmp b a ≤ 0)%Z.
Hypothesis cmp_trans : ∀ a b c, P a → P b → P c →
  (cmp a b ≤ 0)%Z → (cmp b c ≤ 0)%Z → (cmp a c ≤ 0)%Z.

Lemma insertBy_inOrder x l :
  P x → Forall P l → inOrder cmp l → inOrder cmp (insertBy cmp x l).
Proof.
  intros Hx. induction l as [|y l IH]; intros HP Hl; simpl.
  - split; [constructor | done].
  - apply Forall_cons in HP as [Hy HP]. destruct Hl as [Hyl Hl].
    destruct (cmp x y <=? 0)%Z eqn:E.
    + apply Z.leb_le in E. split; [|by split]. constructor; [done|].
      rewrite Forall_forall in Hyl, HP. apply Forall_forall. intros z Hz.
      eapply cmp_trans; eauto.
    + apply Z.leb_gt in E. split; [|by apply IH].
      rewrite insertBy_Permutation. constructor; [|done]. by apply cmp_flip.
Qed.

Lemma sortBy_inOrder l : Forall P l → inOrder cmp (sortBy cmp l).
Proof.
  induction 1 as [|x l Hx Hl IH]; simpl; [done|].
  apply insertBy_inOrder; [done | | done]. by rewrite sortBy_Permutation.
Qed.

End Sorting.

(** ** [detectFileTypes] *)

Lemma compareFiles_flip a b :
  (0 < compareFiles a b)%Z → (compareFiles b a ≤ 0)%Z.
Proof.
  unfold compareFiles.
  destruct (decide (rowCount a = rowCount b)) as [E | E],
    (decide (rowCount b = rowCount a)) as [E' | E']; try congruence; lia.
Qed.

Lemma compareFiles_known a b :
  is_Some (rowCount a) → is_Some (rowCount b) →
  (compareFiles a b ≤ 0)%Z ↔ ranksAtLeast a b.
Proof.
  intros [x Hx] [y Hy]. unfold compareFiles, ranksAtLeast. rewrite Hx, Hy. simpl.
  destruct (decide (Some x = Some y)) as [E | E].
  - injection E as ->. split; [intros; right; split; [done | lia] | ].
    intros [? | [_ ?]]; lia.
  - split.
    + intros H. left. assert (x ≠ y) by congruence. lia.
    + intros [? | [[= ->] _]]; [lia | done].
Qed.

Lemma compareFiles_trans a b c :
  is_Some (rowCount a) → is_Some (rowCount b) → is_Some (rowCount c) →
  (compareFiles a b ≤ 0)%Z → (compareFiles b c ≤ 0)%Z → (compareFiles a c ≤ 0)%Z.
Proof.
  intros Ha Hb Hc. rewrite !compareFiles_known by done.
  destruct Ha as [x Hx], Hb as [y Hy], Hc as [z Hz].
  unfold ranksAtLeast. rewrite Hx, Hy, Hz. simpl.
  intros [? | [[= ->] ?]] [? | [[= ->] ?]]; try (left; lia).
  right. split; [done | lia].
Qed.

Lemma sameFile_compare (h : FileEntry → FileEntry) a b :
  (∀ f, sameFile f (h f)) → compareFiles (h a) (h b) = compareFiles a b.
Proof.
  intros Hh. destruct (Hh a) as (_ & Hsa & Hra & _), (Hh b) as (_ & Hsb & Hrb & _).
  unfold compareFiles. by rewrite Hsa, Hra, Hsb, Hrb.
Qed.

Lemma sameFile_withRoles d t f : sameFile f (withRoles d t f).
Proof. by repeat split. Qed.

Lemma sameFile_markRoles first second f : sameFile f (markRoles first second f).
Proof. apply sameFile_withRoles. Qed.

(** With two files or more, the two leading entries of the sorted copy
    exist and every file is marked against them. *)
Lemma detectFileTypes_marks files :
  2 ≤ length files →
  ∃ first second rest,
    sortBy compareFiles files = first :: second :: rest ∧
    detectFileTypes files = markRoles first second <$> files.
Proof.
  intros Hlen. unfold detectFileTypes. rewrite decide_False by lia.
  pose proof (Permutation_length (sortBy_Permutation compareFiles files)) as Hs.
  destruct (sortBy compareFiles files) as [|first [|second rest]];
    simpl in Hs; [lia | lia |].
  by exists first, second, rest.
Qed.

Lemma detectFileTypes_sameFile files : Forall2 sameFile files (detectFileTypes files).
Proof.
  destruct (decide (length files < 2)) as [H | H].
  - unfold detectFileTypes. rewrite decide_True by done.
    apply Forall_Forall2_diag, Forall_true. intros f. by repeat split.
  - destruct (detectFileTypes_marks files) as (first & second & rest & _ & ->); [lia|].
    apply Forall2_fmap_r, Forall_Forall2_diag, Forall_true.
    intros f. apply sameFile_markRoles.
Qed.

(** X9. [detectFileTypes] changes role flags only: the list keeps its
    length and order and every entry its name, size, row count, id and
    contents.  A list of fewer than two files is returned as it is, so a
    single file is never labelled; with two or more, both flags of every
    entry are set and no entry is both data file and template. *)
Theorem detectFileTypes_changes_flags_only (files : list FileEntry) :
  Forall2 sameFile files (detectFileTypes files) ∧
  (length files < 2 → detectFileTypes files = files) ∧
  (2 ≤ length files →
   ∀ g, g ∈ detectFileTypes files →
     is_Some (isDataFile g) ∧ is_Some (isTemplateFile g) ∧
     ¬ (holdsRole DataRole g = true ∧ holdsRole TemplateRole g = true)).
Proof.
  assert (Hshort : length files < 2 → detectFileTypes files = files).
  { intros H. unfold detectFileTypes. by rewrite decide_True. }
  split; [|split; [exact Hshort|]].
  - destruct (decide (length files < 2)) as [H | H].
    + rewrite Hshort by done. apply Forall2_same_length_lookup_2; [done|].
      intros i f g Hf Hg. assert (g = f) as -> by congruence. by repeat split.
    + destruct (detectFileTypes_marks files) as (first & second & rest & _ & ->); [lia|].
      apply Forall2_fmap_r, Forall_Forall2_diag, Forall_true.
      intros f. apply sameFile_markRoles.
  - intros H g Hg.
    destruct (detectFileTypes_marks files H) as (first & second & rest & _ & E).
    rewrite E in Hg. apply list_elem_of_fmap in Hg as (f & -> & _).
    unfold markRoles. cbn. repeat split; [by eexists | by eexists |].
    destruct (String.eqb (fileId f) (fileId first)); simpl; intros [? ?]; done.
Qed.

Lemma id_determines_file (files : list FileEntry) f g :
  NoDup (fileId <$> files) → f ∈ files → g ∈ files → fileId f = fileId g → f = g.
Proof.
  induction files as [|x files IH]; intros Hnd Hf Hg Hid; [by apply elem_of_nil in Hf|].
  rewrite fmap_cons in Hnd. apply NoDup_cons in Hnd as [Hx Hnd].
  apply elem_of_cons in Hf as [-> | Hf], Hg as [-> | Hg]; [done | | | by apply IH].
  - exfalso. apply Hx. rewrite Hid. by apply list_elem_of_fmap_2.
  - exfalso. apply Hx. rewrite <- Hid. by apply list_elem_of_fmap_2.
Qed.

Lemma filter_none {A} (P : A → Prop) `{∀ x, Decision (P x)} (l : list A) :
  (∀ x, x ∈ l → ¬ P x) → filter P l = [].
Proof.
  induction l as [|x l IH]; intros Hno; [done|].
  rewrite filter_cons, decide_False by (apply Hno; by left).
  apply IH. intros y Hy. apply Hno. by right.
Qed.

Lemma one_file_per_id (files : list FileEntry) x :
  NoDup (fileId <$> files) → x ∈ files →
  length (filter (λ f, fileId f = fileId x) files) = 1.
Proof.
  induction files as [|y files IH]; intros Hnd Hx; [by apply elem_of_nil in Hx|].
  rewrite fmap_cons in Hnd. apply NoDup_cons in Hnd as [Hy Hnd].
  rewrite filter_cons. destruct (decide (fileId y = fileId x)) as [E | E].
  - simpl. f_equal. apply length_zero_iff_nil, filter_none.
    intros f Hf Hid. apply Hy. rewrite E, <- Hid. by apply list_elem_of_fmap_2.
  - apply elem_of_cons in Hx as [-> | Hx]; [done | by apply IH].
Qed.

Lemma length_filter_fmap {A B} (h : A → B) (P : B → Prop) `{∀ y, Decision (P y)}
    (l : list A) :
  length (filter P (h <$> l)) = length (filter (λ x, P (h x)) l).
Proof.
  induction l as [|x l IH]; [done|].
  rewrite fmap_cons, !filter_cons. destruct (decide (P (h x))); simpl; by rewrite IH.
Qed.

Lemma holdsRole_markRoles_data first second f :
  holdsRole DataRole (markRoles first second f) = true ↔ fileId f = fileId first.
Proof. unfold markRoles. cbn. apply String.eqb_eq. Qed.

Lemma holdsRole_markRoles_template first second f :
  holdsRole TemplateRole (markRoles first second f) = true
  ↔ fileId f ≠ fileId first ∧ fileId f = fileId second.
Proof.
  unfold markRoles. cbn.
  rewrite andb_true_iff, negb_true_iff, String.eqb_eq, String.eqb_neq. tauto.
Qed.

(** The two leading entries of the sorted copy are files of the list,
    and they have different ids when ids are not repeated. *)
Lemma sorted_leaders files first second rest :
  sortBy compareFiles files = first :: second :: rest →
  first ∈ files ∧ second ∈ files ∧
  (NoDup (fileId <$> files) → fileId first ≠ fileId second).
Proof.
  intros E. pose proof (sortBy_Permutation compareFiles files) as Hperm.
  rewrite E in Hperm. repeat split.
  - rewrite <- Hperm. by left.
  - rewrite <- Hperm. right. by left.
  - intros Hnd. rewrite <- Hperm in Hnd. rewrite !fmap_cons in Hnd.
    apply NoDup_cons in Hnd as [Hfirst _]. intros Hid. apply Hfirst.
    rewrite Hid. by left.
Qed.

(** X10. With two or more files whose ids are pairwise distinct,
    [detectFileTypes] labels exactly one file as data file and exactly one
    as template. *)
Theorem detectFileTypes_one_of_each (files : list FileEntry) :
  2 ≤ length files → NoDup (fileId <$> files) →
  length (filter (λ g, holdsRole DataRole g = true) (detectFileTypes files)) = 1 ∧
  length (filter (λ g, holdsRole TemplateRole g = true) (detectFileTypes files)) = 1.
Proof.
  intros Hlen Hnd.
  destruct (detectFileTypes_marks files Hlen) as (first & second & rest & Hsorted & ->).
  destruct (sorted_leaders _ _ _ _ Hsorted) as (Hfirst & Hsecond & Hdiff).
  specialize (Hdiff Hnd). rewrite !length_filter_fmap. split.
  - rewrite <- (one_file_per_id files first Hnd Hfirst). f_equal.
    apply list_filter_iff. intros f. apply holdsRole_markRoles_data.
  - rewrite <- (one_file_per_id files second Hnd Hsecond). f_equal.
    apply list_filter_iff. intros f. rewrite holdsRole_markRoles_template.
    split; [tauto | intros E; split; congruence].
Qed.

Lemma detectFileTypes_one_of_each_witness :
  length (filter (λ g, holdsRole DataRole g = true)
            (detectFileTypes [exampleFile "t.csv" 40 1; exampleFile "d.csv" 900 50;
                              exampleFile "x.csv" 10 1])) = 1 ∧
  length (filter (λ g, holdsRole TemplateRole g = true)
            (detectFileTypes [exampleFile "t.csv" 40 1; exampleFile "d.csv" 900 50;
                              exampleFile "x.csv" 10 1])) = 1.
Proof.
  apply (detectFileTypes_one_of_each
    [exampleFile "t.csv" 40 1; exampleFile "d.csv" 900 50; exampleFile "x.csv" 10 1]).
  - vm_compute. lia.
  - apply (bool_decide_unpack _). vm_compute. exact I.
Defined.

(** X11. With two or more files of distinct ids whose row counts are all
    known, the file labelled data has the largest row count, and the
    largest size among those with that count; the file labelled template
    ranks in the same way above every file other than the data file. *)
Theorem detectFileTypes_picks_largest (files : list FileEntry) :
  2 ≤ length files → NoDup (fileId <$> files) →
  Forall (λ f, is_Some (rowCount f)) files →
  ∀ g, g ∈ detectFileTypes files →
    (holdsRole DataRole g = true → ∀ f, f ∈ files → ranksAtLeast g f) ∧
    (holdsRole TemplateRole g = true →
     ∀ f, f ∈ detectFileTypes files → holdsRole DataRole f = false →
          ranksAtLeast g f).
Proof.
  intros Hlen Hnd Hknown g Hg.
  destruct (detectFileTypes_marks files Hlen) as (first & second & rest & Hsorted & E).
  destruct (sorted_leaders _ _ _ _ Hsorted) as (Hfirst & Hsecond & _).
  pose proof (sortBy_Permutation compareFiles files) as Hperm.
  pose proof (sortBy_inOrder compareFiles (λ f, is_Some (rowCount f))
    (λ a b _ _, compareFiles_flip a b) compareFiles_trans files Hknown) as Horder.
  rewrite Hsorted in Hperm, Horder. destruct Horder as (Hfirst_le & Hsecond_le & _).
  rewrite Forall_forall in Hknown, Hfirst_le, Hsecond_le.
  assert (Hrank : ∀ a b, a ∈ files → b ∈ files → (compareFiles a b ≤ 0)%Z →
                         ∀ a', sameFile a a' → ranksAtLeast a' b).
  { intros a b Ha Hb Hle a' (_ & Hs & Hr & _).
    apply compareFiles_known in Hle; auto.
    unfold ranksAtLeast in *. by rewrite Hs, Hr. }
  assert (Hself : ∀ a, (compareFiles a a ≤ 0)%Z).
  { intros a. unfold compareFiles. rewrite decide_True by done. lia. }
  rewrite E in Hg |- *. apply list_elem_of_fmap in Hg as (g0 & -> & Hg0). split.
  - intros Hdata f Hf. apply holdsRole_markRoles_data in Hdata.
    assert (g0 = first) as -> by (by apply (id_determines_file files)).
    apply (Hrank first f); [done | done | | apply sameFile_markRoles].
    rewrite <- Hperm in Hf. apply elem_of_cons in Hf as [-> | Hf]; auto.
  - intros Htemplate f Hf Hnot. apply holdsRole_markRoles_template in Htemplate as [_ Hid].
    assert (g0 = second) as -> by (by apply (id_determines_file files)).
    apply list_elem_of_fmap in Hf as (f0 & -> & Hf0).
    assert (fileId f0 ≠ fileId first) as Hne.
    { intros Hid'. apply (proj2 (holdsRole_markRoles_data first second f0)) in Hid'.
      congruence. }
    destruct (sameFile_markRoles first second f0) as (_ & Hs & Hr & _).
    assert (ranksAtLeast (markRoles first second second) f0) as H0.
    { apply (Hrank second f0); [done | done | | apply sameFile_markRoles].
      rewrite <- Hperm in Hf0.
      apply elem_of_cons in Hf0 as [-> | Hf0]; [done|].
      apply elem_of_cons in Hf0 as [-> | Hf0]; auto. }
    unfold ranksAtLeast in *. by rewrite Hs, Hr.
Qed.

Lemma detectFileTypes_picks_largest_witness :
  Forall (ranksAtLeast (withRoles (Some true) (Some false) (exampleFile "d.csv" 900 50)))
    [exampleFile "t.csv" 40 1; exampleFile "d.csv" 900 50; exampleFile "x.csv" 10 1].
Proof.
  apply Forall_forall. intros f Hf.
  refine (proj1 (detectFileTypes_picks_largest
    [exampleFile "t.csv" 40 1; exampleFile "d.csv" 900 50; exampleFile "x.csv" 10 1]
    _ _ _ (withRoles (Some true) (Some false) (exampleFile "d.csv" 900 50)) _)
    eq_refl f Hf).
  - vm_compute. lia.
  - apply (bool_decide_unpack _). vm_compute. exact I.
  - repeat constructor; by eexists.
  - right. left.
Defined.

(** ** Manual labels *)

(** The body of the [map] of [toggleFileType]. *)
Lemma toggleFileType_each fileId0 newType files :
  ∃ h, toggleFileType fileId0 newType files = h <$> files ∧
    ∀ f, sameFile f (h f) ∧
      holdsRole newType (h f) = String.eqb (fileId f) fileId0 ∧
      holdsRole (otherRole newType) (h f)
      = (if String.eqb (fileId f) fileId0 then false
         else holdsRole (otherRole newType) f).
Proof.
  eexists. split; [reflexivity|]. intros f. cbv beta.
  destruct newType, (String.eqb (fileId f) fileId0);
    destruct (isDataFile f) as [[]|] eqn:Ed, (isTemplateFile f) as [[]|] eqn:Et;
    cbn; rewrite ?Ed, ?Et; by repeat split.
Qed.

Lemma detectFileTypes_ignores_flags (h : FileEntry → FileEntry) files :
  (∀ f, sameFile f (h f)) → 2 ≤ length files →
  detectFileTypes (h <$> files) = detectFileTypes files.
Proof.
  intros Hh Hlen.
  destruct (detectFileTypes_marks files Hlen) as (first & second & rest & Hs & ->).
  destruct (detectFileTypes_marks (h <$> files))
    as (first' & second' & rest' & Hs' & ->); [by rewrite length_fmap|].
  rewrite sortBy_fmap, Hs in Hs' by (intros; by apply sameFile_compare).
  rewrite !fmap_cons in Hs'. injection Hs' as <- <- _.
  rewrite <- list_fmap_compose. apply list_fmap_ext. intros _ f _. cbn [compose].
  destruct (Hh f) as (Hn & Hsz & Hr & Hid & Hc).
  destruct (Hh first) as (_ & _ & _ & Hid1 & _).
  destruct (Hh second) as (_ & _ & _ & Hid2 & _).
  unfold markRoles, withRoles. by rewrite Hn, Hsz, Hr, Hid, Hc, Hid1, Hid2.
Qed.

Lemma detectFileTypes_short files :
  length files < 2 → detectFileTypes files = files.
Proof. intros H. unfold detectFileTypes. by rewrite decide_True. Qed.

(** X12. [detectFileTypes] does not read the role flags: run on a list of
    two or more files after a manual [toggleFileType], it returns what it
    returns without the toggle, so a manual label does not survive the
    next detection (adding or removing a file); and running it twice is
    running it once. *)
Theorem detectFileTypes_overrides_manual_labels
    (files : list FileEntry) (fileId0 : string) (newType : fileRole) :
  (2 ≤ length files →
   detectFileTypes (toggleFileType fileId0 newType files) = detectFileTypes files) ∧
  detectFileTypes (detectFileTypes files) = detectFileTypes files.
Proof.
  split.
  - intros Hlen. destruct (toggleFileType_each fileId0 newType files) as (h & -> & Hh).
    apply detectFileTypes_ignores_flags; [|done]. intros f. apply Hh.
  - destruct (decide (length files < 2)) as [H | H].
    + rewrite (detectFileTypes_short files H). by apply detectFileTypes_short.
    + destruct (detectFileTypes_marks files) as (first & second & rest & _ & E); [lia|].
      rewrite E at 1. apply detectFileTypes_ignores_flags; [|lia].
      intros f. apply sameFile_markRoles.
Qed.

Lemma detectFileTypes_overrides_manual_labels_witness :
  detectFileTypes
    (toggleFileType "t.csv" DataRole
       [exampleFile "t.csv" 40 1; exampleFile "d.csv" 900 50])
  = detectFileTypes [exampleFile "t.csv" 40 1; exampleFile "d.csv" 900 50].
Proof.
  apply (proj1 (detectFileTypes_overrides_manual_labels
    [exampleFile "t.csv" 40 1; exampleFile "d.csv" 900 50] "t.csv" DataRole)).
  vm_compute. lia.
Defined.

(** X13. After [toggleFileType] with an id and a role, the files that
    hold the role are exactly those with that id, and they do not hold
    the other role; every other file keeps the other role as it had it;
    nothing but role flags changes.  With pairwise distinct ids and the id
    in the list, exactly one file holds the role. *)
Theorem toggleFileType_assigns_role
    (fileId0 : string) (newType : fileRole) (files : list FileEntry) :
  Forall2 sameFile files (toggleFileType fileId0 newType files) ∧
  (∀ i f, files !! i = Some f →
     ∃ g, toggleFileType fileId0 newType files !! i = Some g ∧
       holdsRole newType g = String.eqb (fileId f) fileId0 ∧
       holdsRole (otherRole newType) g
       = (if String.eqb (fileId f) fileId0 then false
          else holdsRole (otherRole newType) f)) ∧
  (NoDup (fileId <$> files) → fileId0 ∈ fileId <$> files →
   length (filter (λ g, holdsRole newType g = true)
             (toggleFileType fileId0 newType files)) = 1).
Proof.
  destruct (toggleFileType_each fileId0 newType files) as (h & -> & Hh).
  split; [|split].
  - apply Forall2_fmap_r, Forall_Forall2_diag, Forall_true. intros f. apply Hh.
  - intros i f Hf. exists (h f). rewrite list_lookup_fmap, Hf.
    split; [done|]. apply Hh.
  - intros Hnd Hin. apply list_elem_of_fmap in Hin as (x & -> & Hx).
    rewrite length_filter_fmap, <- (one_file_per_id files x Hnd Hx). f_equal.
    apply list_filter_iff. intros f. destruct (Hh f) as (_ & -> & _).
    apply String.eqb_eq.
Qed.

Lemma toggleFileType_assigns_role_witness :
  length (filter (λ g, holdsRole TemplateRole g = true)
            (toggleFileType "x.csv" TemplateRole
               (detectFileTypes [exampleFile "t.csv" 40 1; exampleFile "d.csv" 900 50;
                                 exampleFile "x.csv" 10 1]))) = 1.
Proof.
  apply (proj2 (proj2 (toggleFileType_assigns_role "x.csv" TemplateRole
    (detectFileTypes [exampleFile "t.csv" 40 1; exampleFile "d.csv" 900 50;
                      exampleFile "x.csv" 10 1])))).
  - apply (bool_decide_unpack _). vm_compute. exact I.
  - apply (bool_decide_unpack _). vm_compute. exact I.
Defined.

(** ** Starting the cleaning *)

Lemma find_nothing {A} (p : A → bool) (l : list A) :
  (∀ x, x ∈ l → p x = false) → List.find p l = None.
Proof.
  induction l as [|x l IH]; intros Hno; [done|]. simpl.
  rewrite (Hno x) by (by left). apply IH. intros y Hy. apply Hno. by right.
Qed.

Lemma find_something {A} (p : A → bool) (l : list A) x :
  List.find p l = Some x → x ∈ l ∧ p x = true.
Proof.
  induction l as [|y l IH]; simpl; [done|].
  destruct (p y) eqn:E.
  - intros [= <-]. split; [by left | done].
  - intros H. destruct (IH H). split; [by right | done].
Qed.

Lemma find_exists {A} (p : A → bool) (l : list A) x :
  x ∈ l → p x = true → ∃ y, List.find p l = Some y.
Proof.
  intros Hx Hp. destruct (List.find p l) as [y|] eqn:E; [by exists y|].
  exfalso. induction l as [|z l IH]; [by apply elem_of_nil in Hx|].
  simpl in E. destruct (p z) eqn:Ez; [done|].
  apply elem_of_cons in Hx as [-> | Hx]; [congruence | auto].
Qed.

Lemma cleanData_throws_iff dataFile templateFile options :
  (lacksList dataFile ∨ lacksList templateFile →
   cleanData dataFile templateFile options = inl (Error "File data is not available")) ∧
  (¬ (lacksList dataFile ∨ lacksList templateFile) →
   ∃ r, cleanData dataFile templateFile options = inr r).
Proof.
  destruct dataFile as [[od|] [dh|]], templateFile as [[td|] [th|]];
    unfold lacksList; cbn [data headers];
    try (split; [intros _; reflexivity | intros []; tauto]).
  destruct (cleanData_present od dh td th options) as (r & Hr & _).
  split; [intros [[?|?]|[?|?]]; done | intros _; by exists r].
Qed.

(** X14. [handleCleanData] shows the assign-labels message exactly when
    no file holds the template role or no file holds the data role.
    Otherwise it cleans the first file holding the data role against the
    first holding the template role: it shows the failure message of
    [cleanData] when one of the two lacks its data or header list, and
    the result otherwise. *)
Theorem handleCleanData_outcomes
    (files : list FileEntry) (options : cleaningOptions) :
  (handleCleanData files options = ShowError assignLabelsMessage
   ↔ (∀ f, f ∈ files → holdsRole TemplateRole f = false)
     ∨ (∀ f, f ∈ files → holdsRole DataRole f = false)) ∧
  (∀ templateFile dataFile,
     List.find (λ f, flagSet (isTemplateFile f)) files = Some templateFile →
     List.find (λ f, flagSet (isDataFile f)) files = Some dataFile →
     (lacksList (contents dataFile) ∨ lacksList (contents templateFile) →
      handleCleanData files options
      = ShowError "Failed to process data: File data is not available") ∧
     (¬ (lacksList (contents dataFile) ∨ lacksList (contents templateFile)) →
      ∃ r, cleanData (contents dataFile) (contents templateFile) options = inr r ∧
           handleCleanData files options = ShowResult r)).
Proof.
  split.
  - unfold handleCleanData.
    destruct (List.find (λ f, flagSet (isTemplateFile f)) files) as [t|] eqn:Et.
    + destruct (List.find (λ f, flagSet (isDataFile f)) files) as [d|] eqn:Ed.
      * apply find_something in Et as [Ht Ht'], Ed as [Hd Hd']. split.
        -- destruct (cleanData (contents d) (contents t) options) as [[msg]|r];
             [|done]. intros [= H]; discriminate H.
        -- intros [H | H]; [specialize (H t Ht) | specialize (H d Hd)];
             simpl in H; congruence.
      * split; [|done]. intros _. right. intros f Hf.
        destruct (holdsRole DataRole f) eqn:E; [|done].
        destruct (find_exists (λ f, flagSet (isDataFile f)) files f Hf E) as [y Hy].
        congruence.
    + split; [|done]. intros _. left. intros f Hf.
      destruct (holdsRole TemplateRole f) eqn:E; [|done].
      destruct (find_exists (λ f, flagSet (isTemplateFile f)) files f Hf E) as [y Hy].
      congruence.
  - intros t d Et Ed. unfold handleCleanData. rewrite Et, Ed.
    destruct (cleanData_throws_iff (contents d) (contents t) options) as [Hthrow Hok].
    split.
    + intros Hlack. by rewrite Hthrow.
    + intros Hnot. destruct (Hok Hnot) as [r Hr]. exists r. by rewrite Hr.
Qed.

(** X15. Giving a role to the file that alone holds the other role
    leaves the other role with nobody: if every holder of the other role
    has the toggled id, then after the toggle no file holds it, and
    [handleCleanData] shows the assign-labels message. *)
Theorem toggle_can_leave_a_role_empty
    (fileId0 : string) (newType : fileRole) (files : list FileEntry)
    (options : cleaningOptions) :
  (∀ g, g ∈ files → holdsRole (otherRole newType) g = true → fileId g = fileId0) →
  (∀ g, g ∈ toggleFileType fileId0 newType files →
        holdsRole (otherRole newType) g = false) ∧
  handleCleanData (toggleFileType fileId0 newType files) options
  = ShowError assignLabelsMessage.
Proof.
  intros Honly.
  assert (Hnone : ∀ g, g ∈ toggleFileType fileId0 newType files →
                       holdsRole (otherRole newType) g = false).
  { destruct (toggleFileType_each fileId0 newType files) as (h & -> & Hh).
    intros g Hg. apply list_elem_of_fmap in Hg as (f & -> & Hf).
    destruct (Hh f) as (_ & _ & ->).
    destruct (String.eqb (fileId f) fileId0) eqn:E; [done|].
    destruct (holdsRole (otherRole newType) f) eqn:Ef; [|done].
    apply String.eqb_neq in E. by destruct (E (Honly f Hf Ef)). }
  split; [exact Hnone|]. unfold handleCleanData.
  destruct newType; cbn [otherRole holdsRole] in Hnone.
  - by rewrite (find_nothing (λ f, flagSet (isTemplateFile f)) _ Hnone).
  - rewrite (find_nothing (λ f, flagSet (isDataFile f)) _ Hnone).
    by destruct (List.find _ _).
Qed.

Lemma toggle_can_leave_a_role_empty_witness :
  handleCleanData
    (toggleFileType "t.csv" DataRole
       (detectFileTypes [exampleFile "t.csv" 40 1; exampleFile "d.csv" 900 50]))
    noOptions
  = ShowError assignLabelsMessage.
Proof.
  refine (proj2 (toggle_can_leave_a_role_empty "t.csv" DataRole
    (detectFileTypes [exampleFile "t.csv" 40 1; exampleFile "d.csv" 900 50])
    noOptions _)).
  intros g Hg. vm_compute in Hg.
  apply elem_of_cons in Hg as [-> | Hg]; [done|].
  apply elem_of_cons in Hg as [-> | Hg]; [discriminate|].
  by apply elem_of_nil in Hg.
Defined.

(** X16. The labels set by [detectFileTypes] always allow the cleaning
    to run: with two or more files of pairwise distinct ids, each with its
    data and header lists, [handleCleanData] on the detected list returns
    a result. *)
Theorem detected_labels_allow_cleaning
    (files : list FileEntry) (options : cleaningOptions) :
  2 ≤ length files → NoDup (fileId <$> files) →
  Forall (λ f, ¬ lacksList (contents f)) files →
  ∃ r, handleCleanData (detectFileTypes files) options = ShowResult r.
Proof.
  intros Hlen Hnd Hparsed.
  destruct (detectFileTypes_marks files Hlen) as (first & second & rest & Hsorted & E).
  destruct (sorted_leaders _ _ _ _ Hsorted) as (Hfirst & Hsecond & Hdiff).
  specialize (Hdiff Hnd). rewrite Forall_forall in Hparsed.
  assert (Hcontents : ∀ g, g ∈ detectFileTypes files → ¬ lacksList (contents g)).
  { intros g Hg. rewrite E in Hg. apply list_elem_of_fmap in Hg as (f & -> & Hf).
    exact (Hparsed f Hf). }
  destruct (find_exists (λ f, flagSet (isDataFile f)) (detectFileTypes files)
    (markRoles first second first)) as [d Hd].
  { rewrite E. by apply list_elem_of_fmap_2. }
  { by apply (proj2 (holdsRole_markRoles_data first second first)). }
  destruct (find_exists (λ f, flagSet (isTemplateFile f)) (detectFileTypes files)
    (markRoles first second second)) as [t Ht].
  { rewrite E. by apply list_elem_of_fmap_2. }
  { apply (proj2 (holdsRole_markRoles_template first second second)).
    split; [congruence | done]. }
  unfold handleCleanData. rewrite Ht, Hd.
  apply find_something in Hd as [Hd _], Ht as [Ht _].
  destruct (cleanData_throws_iff (contents d) (contents t) options) as [_ Hok].
  destruct Hok as [r Hr].
  - intros [H | H]; [by apply (Hcontents d) | by apply (Hcontents t)].
  - exists r. by rewrite Hr.
Qed.

Lemma detected_labels_allow_cleaning_witness :
  handleCleanData
    (detectFileTypes
       [exampleParsed "t.csv" 20 [["Age"; "Name"]];
        exampleParsed "d.csv" 90 [["Name"; "Age"; "Extra"]; ["Ann"; "30"; "x"]]]%string)
    noOptions
  = ShowResult {| totalRowsCleaned := 1; columnsDeleted := 1;
                  duplicateRowsRemoved := 0;
                  cleanedData := [[CStr "Age"; CStr "Name"]; [CStr "30"; CStr "Ann"]] |}.
Proof.
  destruct (detected_labels_allow_cleaning
    [exampleParsed "t.csv" 20 [["Age"; "Name"]];
     exampleParsed "d.csv" 90 [["Name"; "Age"; "Extra"]; ["Ann"; "30"; "x"]]]%string
    noOptions) as [r Hr].
  - vm_compute. lia.
  - apply (bool_decide_unpack _). vm_compute. exact I.
  - repeat constructor; intros [H | H]; discriminate H.
  - rewrite Hr. vm_compute in Hr. by injection Hr as <-.
Defined.

(** ** Steps *)

Lemma handleStepChange_cases st newStep :
  let allowed :=
    newStep = 1%Z
    ∨ (newStep = 2%Z ∧ ((newStep ≤ currentStep st)%Z ∨ 2 ≤ length (uploadedFiles st)))
    ∨ (newStep = 3%Z ∧ ((newStep ≤ currentStep st)%Z ∨ is_Some (cleaningResult st))) in
  (handleStepChange st newStep = st ∧ ¬ allowed)
  ∨ (handleStepChange st newStep
     = {| currentStep := newStep; uploadedFiles := uploadedFiles st;
          cleaningResult := cleaningResult st; autoAdvanceCountdown := None |}
     ∧ allowed).
Proof.
  intros allowed. unfold handleStepChange.
  assert (allowed ↔
    (newStep =? 1)%Z
    || ((newStep =? 2)%Z
        && ((newStep <=? currentStep st)%Z || (2 <=? length (uploadedFiles st))))
    || ((newStep =? 3)%Z
        && ((newStep <=? currentStep st)%Z
            || match cleaningResult st with Some _ => true | None => false end))
    = true) as Hiff.
  { unfold allowed.
    rewrite !orb_true_iff, !andb_true_iff, !orb_true_iff, !Z.eqb_eq, !Z.leb_le,
      Nat.leb_le.
    assert (is_Some (cleaningResult st)
            ↔ match cleaningResult st with Some _ => true | None => false end = true)
      as ->.
    { destruct (cleaningResult st); split;
        first [done | by eexists | by intros [? ?]]. }
    tauto. }
  destruct ((newStep =? 1)%Z || _ || _) eqn:E.
  - right. split; [done | by apply Hiff].
  - left. split; [done|]. rewrite Hiff. done.
Qed.

Lemma handleNextStep_cases st :
  handleNextStep st = st
  ∨ (currentStep st = 1%Z ∧ currentStep (handleNextStep st) = 2%Z
     ∧ 2 ≤ length (uploadedFiles st)).
Proof.
  unfold handleNextStep.
  destruct (Z.eqb_spec (currentStep st) 1) as [Hstep | Hstep]; [|by left].
  destruct (Nat.leb_spec 2 (length (uploadedFiles st))) as [Hfiles | Hfiles];
    [|by left]. cbn [andb]. right.
  destruct (handleStepChange_cases st 2) as [[_ Hno] | [-> _]]; [|done].
  exfalso. apply Hno. right. left. split; [done | by right].
Qed.

(** X17. [handleStepChange] keeps the step among 1, 2 and 3 once it is
    there, never reaches step 3 from below without a cleaning result nor
    step 2 from step 1 with fewer than two files, always allows going
    back, and changes neither the files nor the result; when it changes
    the step it cancels the countdown.  [handleNextStep] only ever moves
    from step 1 to step 2, and only with two files or more. *)
Theorem step_changes_are_guarded (st : AppState) (newStep : Z) :
  uploadedFiles (handleStepChange st newStep) = uploadedFiles st ∧
  cleaningResult (handleStepChange st newStep) = cleaningResult st ∧
  (handleStepChange st newStep = st
   ∨ (currentStep (handleStepChange st newStep) = newStep
      ∧ autoAdvanceCountdown (handleStepChange st newStep) = None
      ∧ (1 ≤ newStep ≤ 3)%Z)) ∧
  ((1 ≤ currentStep st ≤ 3)%Z →
   (1 ≤ currentStep (handleStepChange st newStep) ≤ 3)%Z) ∧
  (currentStep (handleStepChange st newStep) = 3%Z →
   (3 ≤ currentStep st)%Z ∨ is_Some (cleaningResult st)) ∧
  (currentStep (handleStepChange st newStep) = 2%Z →
   (2 ≤ currentStep st)%Z ∨ 2 ≤ length (uploadedFiles st)) ∧
  ((1 ≤ newStep ≤ 3)%Z → (newStep ≤ currentStep st)%Z →
   currentStep (handleStepChange st newStep) = newStep) ∧
  (handleNextStep st = st
   ∨ (currentStep st = 1%Z ∧ currentStep (handleNextStep st) = 2%Z
      ∧ 2 ≤ length (uploadedFiles st))).
Proof.
  assert (Hrange : ∀ x : Z,
    x = 1%Z ∨ (x = 2%Z ∧ ((x ≤ currentStep st)%Z ∨ 2 ≤ length (uploadedFiles st)))
    ∨ (x = 3%Z ∧ ((x ≤ currentStep st)%Z ∨ is_Some (cleaningResult st))) →
    (1 ≤ x ≤ 3)%Z) by (intros x [? | [[? _] | [? _]]]; lia).
  destruct (handleStepChange_cases st newStep) as [[-> Hno] | [-> Hyes]];
    cbn [currentStep uploadedFiles cleaningResult autoAdvanceCountdown].
  - split; [done|]. split; [done|]. split; [by left|]. split; [done|].
    split; [intros; left; lia|]. split; [intros; left; lia|].
    split; [|apply handleNextStep_cases].
    intros Hnew Hback. exfalso. apply Hno.
    destruct (decide (newStep = 1%Z)); [by left|].
    destruct (decide (newStep = 2%Z)); [right; left; split; [done | by left]|].
    right. right. split; [lia | by left].
  - pose proof (Hrange _ Hyes) as Hin.
    split; [done|]. split; [done|]. split; [by right|]. split; [done|].
    split; [|split; [|split; [done | apply handleNextStep_cases]]].
    + intros H. destruct Hyes as [? | [[? _] | [_ [? | ?]]]]; try lia; tauto.
    + intros H. destruct Hyes as [? | [[_ [? | ?]] | [? _]]]; try lia; tauto.
Qed.

(** X18. [removeFile] deletes the entry at the index, or nothing when the
    index is past the end; the remaining entries keep their order and
    everything but their role flags, which are detected anew.  The step
    and the cleaning result stay as they were, and the countdown is
    cancelled exactly when fewer than two files remain. *)
Theorem removeFile_deletes_one_entry (index : nat) (st : AppState) :
  Forall2 sameFile (delete index (uploadedFiles st))
    (uploadedFiles (removeFile index st)) ∧
  (index < length (uploadedFiles st) →
   S (length (uploadedFiles (removeFile index st))) = length (uploadedFiles st)) ∧
  (length (uploadedFiles st) ≤ index →
   length (uploadedFiles (removeFile index st)) = length (uploadedFiles st)) ∧
  currentStep (removeFile index st) = currentStep st ∧
  cleaningResult (removeFile index st) = cleaningResult st ∧
  (length (uploadedFiles (removeFile index st)) < 2 →
   autoAdvanceCountdown (removeFile index st) = None) ∧
  (2 ≤ length (uploadedFiles (removeFile index st)) →
   autoAdvanceCountdown (removeFile index st) = autoAdvanceCountdown st).
Proof.
  unfold removeFile. cbn [uploadedFiles currentStep cleaningResult autoAdvanceCountdown].
  pose proof (detectFileTypes_sameFile (delete index (uploadedFiles st))) as Hsame.
  pose proof (Forall2_length _ _ _ Hsame) as Hlen.
  split; [exact Hsame|]. rewrite <- Hlen.
  split; [intros H; rewrite length_delete by (by apply lookup_lt_is_Some_2); lia|].
  split; [intros H; by rewrite delete_take_drop, take_ge, drop_ge, app_nil_r by lia|].
  split; [done|]. split; [done|].
  destruct (Nat.ltb_spec (length (delete index (uploadedFiles st))) 2);
    split; intros; done || lia.
Qed.

(** * File names *)

Lemma endsWith_spec s suffix :
  endsWith s suffix = true ↔ ∃ base, s = base +:+ suffix.
Proof.
  induction s as [|c s IH]; cbn [endsWith].
  - rewrite orb_false_r, String.eqb_eq. split.
    + intros <-. by exists EmptyString.
    + intros ([|b base] & H); push_append; [done | discriminate].
  - rewrite orb_true_iff, String.eqb_eq, IH. split.
    + intros [<- | (base & ->)]; [by exists EmptyString | by exists (String c base)].
    + intros ([|b base] & H); push_append; [by left|].
      injection H as <- ->. right. by exists base.
Qed.

Lemma splitDot_nodot s :
  JsString.allChars (λ c, negb (isDot c)) s = true → splitDot s = [s].
Proof.
  induction s as [|c s IH]; simpl; [done|].
  rewrite andb_true_iff, negb_true_iff. intros [Hc Hs].
  rewrite IH by done. unfold isDot in Hc. by rewrite Hc.
Qed.

Lemma splitDot_segments s :
  Forall (λ seg, JsString.allChars (λ c, negb (isDot c)) seg = true) (splitDot s).
Proof.
  induction s as [|c s IH]; simpl; [by repeat constructor|].
  destruct (splitDot s) as [|seg segs]; [by repeat constructor|].
  apply Forall_cons in IH as [Hseg Hsegs].
  destruct (Ascii.eqb c ".") eqn:E.
  - by repeat constructor.
  - constructor; [|done]. cbn [JsString.allChars]. rewrite Hseg.
    unfold isDot. by rewrite E.
Qed.

Lemma splitDot_append base ext :
  JsString.allChars (λ c, negb (isDot c)) ext = true →
  ∃ seg segs, splitDot (base +:+ String "." ext) = seg :: segs ∧ last segs = Some ext.
Proof.
  intros Hext. induction base as [|c base IH]; push_append.
  - simpl. rewrite splitDot_nodot by done. by eexists _, _.
  - destruct IH as (seg & segs & E & Hlast). cbn [splitDot]. rewrite E.
    destruct (Ascii.eqb c ".").
    + eexists _, _. split; [reflexivity|]. by destruct segs.
    + by eexists _, _.
Qed.

Lemma nodot_toUpperCase s :
  JsString.allChars (λ c, negb (isDot c)) (JsString.toUpperCase s)
  = JsString.allChars (λ c, negb (isDot c)) s.
Proof. apply allChars_mapChars. intros c. each_ascii c; reflexivity. Qed.

(** X19. [getFileExtension] returns, in upper case, the text after the
    last dot of the file name, and the whole name in upper case when it
    has no dot; the value never holds a dot.  A name that ends with .csv
    or .xlsx, the two endings [parseFile] accepts, gives CSV or XLSX. *)
Theorem getFileExtension_is_last_segment :
  (∀ base ext,
     JsString.allChars (λ c, negb (isDot c)) ext = true →
     getFileExtension (base +:+ String "." ext) = JsString.toUpperCase ext) ∧
  (∀ name,
     JsString.allChars (λ c, negb (isDot c)) name = true →
     getFileExtension name = JsString.toUpperCase name) ∧
  (∀ name,
     JsString.allChars (λ c, negb (isDot c)) (getFileExtension name) = true) ∧
  (∀ name, endsWith name ".csv" = true → getFileExtension name = "CSV"%string) ∧
  (∀ name, endsWith name ".xlsx" = true → getFileExtension name = "XLSX"%string).
Proof.
  assert (Hext : ∀ base ext,
    JsString.allChars (λ c, negb (isDot c)) ext = true →
    getFileExtension (base +:+ String "." ext) = JsString.toUpperCase ext).
  { intros base ext H. unfold getFileExtension.
    destruct (splitDot_append base ext H) as (seg & segs & -> & Hlast).
    assert (last (seg :: segs) = Some ext) as -> by (by destruct segs).
    done. }
  split; [exact Hext|]. split; [|split; [|split]].
  - intros name H. unfold getFileExtension. by rewrite splitDot_nodot.
  - intros name. unfold getFileExtension.
    pose proof (splitDot_segments name) as Hsegs. rewrite Forall_forall in Hsegs.
    destruct (last (splitDot name)) as [seg|] eqn:E; [|done]. simpl.
    rewrite nodot_toUpperCase. apply Hsegs, last_Some_elem_of, E.
  - intros name H. apply endsWith_spec in H as (base & ->). by rewrite Hext.
  - intros name H. apply endsWith_spec in H as (base & ->). by rewrite Hext.
Qed.

Lemma getFileExtension_is_last_segment_witness :
  getFileExtension "sales.2024.Csv" = "CSV"%string ∧
  getFileExtension "README" = "README"%string.
Proof.
  destruct getFileExtension_is_last_segment as (Hext & Hnone & _).
  split.
  - apply (Hext "sales.2024" "Csv"). reflexivity.
  - apply (Hnone "README"). reflexivity.
Defined.

(** * From parsing to cleaning *)

(** X20. Two files as [parseFile] resolves them for .csv input can
    always be cleaned.  When the data file has a first row, the first row
    of the cleaned table is the list of template names found in it, and
    the row count of the result is between 0 and the row count shown at
    upload, equal to it when neither remove-duplicates nor
    remove-empty-rows is on.  When the data file has no row at all, the
    upload shows 0 rows and the result -1. *)
Theorem parsed_csv_files_clean
    (header : list string) (rows templateRows : list (list string))
    (options : cleaningOptions) :
  (∃ r,
     cleanData (parsedCsv (header :: rows)) (parsedCsv templateRows) options = inr r ∧
     head (cleanedData r) = Some (CStr <$> keptNames header (hd [] templateRows)) ∧
     (0 ≤ totalRowsCleaned r ≤ csvRowCount (header :: rows))%Z ∧
     (removeDuplicates options = false → removeEmptyRows options = false →
      totalRowsCleaned r = csvRowCount (header :: rows))) ∧
  (∃ r,
     cleanData (parsedCsv []) (parsedCsv templateRows) options = inr r ∧
     csvRowCount [] = 0%Z ∧ totalRowsCleaned r = (-1)%Z ∧ cleanedData r = []).
Proof.
  split.
  - set (cells := (λ row : list string, CStr <$> row)).
    destruct (cleanData_row_counts header (hd [] templateRows) (cells header)
      (cells <$> rows) (cells <$> templateRows) options)
      as (r & Hr & Hpos & Hle & Heq & Hdup).
    destruct (cleanData_present (cells header :: (cells <$> rows)) header
      (cells <$> templateRows) (hd [] templateRows) options)
      as (r' & Hr' & _ & _ & Hhead & _).
    rewrite Hr in Hr'. injection Hr' as <-.
    assert (Hdup_pos : (0 ≤ duplicateRowsRemoved r)%Z)
      by (by destruct (cleanData_wellShaped _ _ _ _ _ _ Hr)).
    assert (Hcount : csvRowCount (header :: rows) = Z.of_nat (length rows)).
    { unfold csvRowCount. cbn [length]. lia. }
    rewrite length_fmap in Hle, Heq.
    exists r. split; [exact Hr|]. split; [|split].
    + rewrite Hhead, alignColumns_spec. cbn [fst].
      unfold projectTable. rewrite fmap_cons. cbn [head]. f_equal.
      apply projectRow_header, kept_indices.
    + rewrite Hcount. lia.
    + intros Hd He. rewrite Hcount. specialize (Heq He). specialize (Hdup Hd). lia.
  - unfold parsedCsv. cbn [fmap list_fmap hd].
    destruct (cleanData_present [] [] ((λ row : list string, CStr <$> row) <$> templateRows)
      (hd [] templateRows) options) as (r & Hr & _ & Htotal & Hhead & _).
    exists r. split; [exact Hr|].
    assert (cleanedData r = []) as Hnil.
    { destruct (cleanedData r); [done | discriminate]. }
    rewrite Htotal, Hnil. done.
Qed.
